(** * Digital library core: books and authors over a document store

    Shallow embedding of [models/Book.js] (here [src/unnamed/part_002]),
    [src/models/Author.js] and the borrow route of [src/routes/books.js].

    Conventions of the model:
    - a JavaScript string is a Rocq [string]; its characters are read as
      UTF-16 code units below 256 (ASCII and Latin-1);
    - a value that may be [undefined] in a payload is an [option]; [null]
      behaves like [undefined] for every string-valued payload field
      ([x?.trim()], [x && ...], [if (x)]), so [None] covers both;
    - numbers in payloads are integer JavaScript numbers ([Z]);
    - time is a millisecond timestamp [Z]; every [new Date()] read inside one
      call of an operation is the same instant [now];
    - the two collections are lists of documents in natural order, so that
      [findOne], [updateOne] and [deleteOne] act on the first match;
    - a thrown [Error] is a constructor of [err]; its message is recorded in
      the comment of the constructor. *)

From Stdlib Require Import String Ascii List ZArith Bool Lia.
Import ListNotations.
Open Scope string_scope.
Open Scope Z_scope.

(* ------------------------------------------------------------------ *)
(** ** Strings: [trim], [replace(/[-\s]/g, '')], [toLowerCase], regexes *)

Definition code (c : ascii) : Z := Z.of_nat (nat_of_ascii c).

(** JavaScript white space ([\s], and what [trim] removes) below 256:
    TAB, LF, VT, FF, CR, SPACE and NO-BREAK SPACE. *)
Definition is_ws (c : ascii) : bool :=
  let n := code c in
  ((9 <=? n) && (n <=? 13)) || (n =? 32) || (n =? 160).

Fixpoint trim_left (s : string) : string :=
  match s with
  | EmptyString => EmptyString
  | String c r => if is_ws c then trim_left r else s
  end.

Fixpoint rev_str (s : string) : string :=
  match s with
  | EmptyString => EmptyString
  | String c r => (rev_str r ++ String c EmptyString)%string
  end.

(** [s.trim()] *)
Definition trim (s : string) : string :=
  rev_str (trim_left (rev_str (trim_left s))).

(** [s.replace(/[-\s]/g, '')] *)
Fixpoint strip_isbn (s : string) : string :=
  match s with
  | EmptyString => EmptyString
  | String c r =>
      if (Ascii.eqb c "-"%char) || is_ws c then strip_isbn r
      else String c (strip_isbn r)
  end.

(** [toLowerCase] below 256: A-Z and the Latin-1 capitals except the
    multiplication sign. *)
Definition lower_char (c : ascii) : ascii :=
  let n := code c in
  if ((65 <=? n) && (n <=? 90)) || ((192 <=? n) && (n <=? 222) && negb (n =? 215))
  then ascii_of_nat (Z.to_nat (n + 32)) else c.

Fixpoint to_lower (s : string) : string :=
  match s with
  | EmptyString => EmptyString
  | String c r => String (lower_char c) (to_lower r)
  end.

Definition is_digit (c : ascii) : bool :=
  let n := code c in (48 <=? n) && (n <=? 57).

Definition is_hex (c : ascii) : bool :=
  let n := code c in
  is_digit c || ((97 <=? n) && (n <=? 102)) || ((65 <=? n) && (n <=? 70)).

Fixpoint all_chars (p : ascii -> bool) (s : string) : bool :=
  match s with
  | EmptyString => true
  | String c r => p c && all_chars p r
  end.

Definition slen (s : string) : Z := Z.of_nat (String.length s).

(** [/^[\d-]{10,17}$/.test(s)] *)
Definition isbn_regex (s : string) : bool :=
  all_chars (fun c => is_digit c || Ascii.eqb c "-"%char) s
  && (10 <=? slen s) && (slen s <=? 17).

(** [/^\d{4}-\d{2}-\d{2}$/.test(s)] *)
Definition date_regex (s : string) : bool :=
  match s with
  | String y1 (String y2 (String y3 (String y4 (String d1
      (String m1 (String m2 (String d2 (String a1 (String a2 EmptyString))))))))) =>
      is_digit y1 && is_digit y2 && is_digit y3 && is_digit y4
      && Ascii.eqb d1 "-"%char && is_digit m1 && is_digit m2
      && Ascii.eqb d2 "-"%char && is_digit a1 && is_digit a2
  | _ => false
  end.

Definition no_ws_at (c : ascii) : bool := negb (is_ws c) && negb (Ascii.eqb c "@"%char).

(** [[^\s@]+\.[^\s@]+] on the part after the [@]: no white space and no [@],
    and a dot with at least one character on each side. *)
Fixpoint dot_split_ok (seen : bool) (s : string) : bool :=
  match s with
  | EmptyString => false
  | String c r =>
      (seen && Ascii.eqb c "."%char && negb (String.eqb r EmptyString))
      || dot_split_ok true r
  end.

(** [/^[^\s@]+@[^\s@]+\.[^\s@]+$/.test(s)] *)
Fixpoint email_regex_from (seen : bool) (s : string) : bool :=
  match s with
  | EmptyString => false
  | String c r =>
      if Ascii.eqb c "@"%char
      then seen && all_chars no_ws_at r && dot_split_ok false r
      else negb (is_ws c) && email_regex_from true r
  end.

Definition email_regex (s : string) : bool := email_regex_from false s.

(** [s.startsWith(p)] *)
Definition starts_with (p s : string) : bool := String.prefix p s.

(** Truthiness of an optional string: [undefined], [null] and [""] are falsy. *)
Definition truthy (o : option string) : bool :=
  match o with Some s => negb (String.eqb s EmptyString) | None => false end.

(** [!x?.trim()] *)
Definition blank (o : option string) : bool :=
  match o with Some s => String.eqb (trim s) EmptyString | None => true end.

(* ------------------------------------------------------------------ *)
(** ** ObjectId *)

(** [ObjectId.isValid(s)] on a string: a 24-character hex string. *)
Definition ObjectId_isValid (s : string) : bool :=
  (String.length s =? 24)%nat && all_chars is_hex s.

(** [new ObjectId(s)] on a valid string; an ObjectId is kept as its
    canonical (lower-case) hex string. *)
Definition new_ObjectId (s : string) : string := to_lower s.

(* ------------------------------------------------------------------ *)
(** ** Documents *)

Record Book := mkBook {
  b_id : string;
  title : string;
  authorId : string;
  isbn : string;
  genre : string;
  publishedDate : string;
  description : string;
  totalPages : Z;
  availability : bool;
  rating : Z;
  borrowedBy : option string;     (* null, or unset by [$unset] *)
  borrowedDate : option Z;
  returnDueDate : option Z;
  b_createdAt : Z;
  b_updatedAt : Z
}.

Record SocialMedia := mkSocial {
  twitter : option string;
  instagram : option string;
  facebook : option string;
  linkedin : option string
}.

Record Author := mkAuthor {
  a_id : string;
  name : string;
  bio : string;
  birthDate : string;
  nationality : string;
  email : option string;
  website : option string;
  socialMedia : SocialMedia;
  awards : list string;
  isActive : bool;
  a_createdAt : Z;
  a_updatedAt : Z
}.

Record DB := mkDB { authors : list Author; books : list Book }.

(** Request payload of a book ([bookData] / [updateData]). *)
Record BookData := mkBookData {
  d_title : option string;
  d_authorId : option string;
  d_isbn : option string;
  d_genre : option string;
  d_publishedDate : option string;
  d_description : option string;
  d_totalPages : option Z;
  d_rating : option Z;
  d_availability : option bool    (* [Boolean(v)] of the supplied value *)
}.

Definition emptyBookData : BookData :=
  mkBookData None None None None None None None None None.

(* ------------------------------------------------------------------ *)
(** ** Errors and the store monad *)

Inductive err :=
  | EInvalidBookId        (* 'Invalid book ID format' *)
  | EInvalidAuthorId      (* 'Invalid author ID format' *)
  | EValidation (errors : list string)  (* `Validation failed: ${errors.join(', ')}` *)
  | EIsbnExists           (* 'Book with this ISBN already exists' *)
  | EIsbnExistsOther      (* 'Another book with this ISBN already exists' *)
  | EEmailExists          (* 'Author with this email already exists' *)
  | EEmailExistsOther     (* 'Another author with this email already exists' *)
  | EAuthorNotFound       (* 'Author not found' *)
  | EBookNotFound         (* 'Book not found' *)
  | EBookBorrowed         (* 'Cannot delete book that is currently borrowed' *)
  | ENotAvailable         (* 'Book is not available for borrowing' *)
  | ENotBorrowed          (* 'Book is not currently borrowed' *)
  | EAuthorHasBooks (n : nat). (* `Cannot delete author who has ${n} book(s) ...` *)

(** The error kinds of the specification (section 7). *)
Inductive kind := ValidationError | NotFoundError | ConflictError.

Definition kind_of (e : err) : kind :=
  match e with
  | EValidation _ => ValidationError
  | EInvalidBookId | EInvalidAuthorId | EAuthorNotFound | EBookNotFound => NotFoundError
  | EIsbnExists | EIsbnExistsOther | EEmailExists | EEmailExistsOther
  | EBookBorrowed | ENotAvailable | ENotBorrowed | EAuthorHasBooks _ => ConflictError
  end.

(** An operation reads the store and either throws (nothing written: every
    operation throws before its single write) or returns a value and the new
    store. *)
Definition M (A : Type) : Type := DB -> err + (A * DB).

Definition ret {A} (x : A) : M A := fun db => inr (x, db).
Definition throw {A} (e : err) : M A := fun _ => inl e.
Definition bind {A B} (m : M A) (k : A -> M B) : M B :=
  fun db => match m db with inl e => inl e | inr (x, db') => k x db' end.
Definition get : M DB := fun db => inr (db, db).
Definition put (db : DB) : M unit := fun _ => inr (tt, db).

Notation "x <- m ;; k" := (bind m (fun x => k))
  (at level 61, m at next level, right associativity).
Notation "m ;;; k" := (bind m (fun _ => k)) (at level 61, right associativity).

Definition guard (b : bool) (e : err) : M unit := if b then throw e else ret tt.

(* ------------------------------------------------------------------ *)
(** ** Collections *)

(** [findOne]: the first document in natural order that matches. *)
Fixpoint find_first {A} (p : A -> bool) (l : list A) : option A :=
  match l with
  | [] => None
  | x :: r => if p x then Some x else find_first p r
  end.

(** [updateOne]'s [$set]/[$unset] on the first match. *)
Fixpoint update_first {A} (p : A -> bool) (f : A -> A) (l : list A) : list A :=
  match l with
  | [] => []
  | x :: r => if p x then f x :: r else x :: update_first p f r
  end.

(** [deleteOne] on the first match. *)
Fixpoint remove_first {A} (p : A -> bool) (l : list A) : list A :=
  match l with
  | [] => []
  | x :: r => if p x then r else x :: remove_first p r
  end.

(** [countDocuments]. *)
Fixpoint count_docs {A} (p : A -> bool) (l : list A) : nat :=
  match l with
  | [] => 0%nat
  | x :: r => if p x then S (count_docs p r) else count_docs p r
  end.

Definition book_has_id (id : string) (b : Book) : bool := String.eqb (b_id b) id.
Definition author_has_id (id : string) (a : Author) : bool := String.eqb (a_id a) id.

Definition set_books (db : DB) (bs : list Book) : DB := mkDB (authors db) bs.
Definition set_authors (db : DB) (as_ : list Author) : DB := mkDB as_ (books db).

(** [db.collection('books').updateOne({ _id }, ...)]: the matched count. *)
Definition updateOneBook (oid : string) (f : Book -> Book) : M nat :=
  fun db =>
    match find_first (book_has_id oid) (books db) with
    | None => inr (0%nat, db)
    | Some _ => inr (1%nat, set_books db (update_first (book_has_id oid) f (books db)))
    end.

(** [db.collection('books').deleteOne({ _id })]: the deleted count. *)
Definition deleteOneBook (oid : string) : M nat :=
  fun db =>
    match find_first (book_has_id oid) (books db) with
    | None => inr (0%nat, db)
    | Some _ => inr (1%nat, set_books db (remove_first (book_has_id oid) (books db)))
    end.

(* ------------------------------------------------------------------ *)
(** ** [validateBookData] *)

Definition push_if (c : bool) (m : string) (errors : list string) : list string :=
  if c then errors ++ [m] else errors.

Definition validateBookData (d : BookData) (isUpdate : bool) : bool * list string :=
  let errors := [] in
  let errors :=
    if negb isUpdate then
      let errors := push_if (blank (d_title d)) "Title is required" errors in
      let errors := push_if (blank (d_authorId d)) "Author ID is required" errors in
      let errors := push_if (blank (d_isbn d)) "ISBN is required" errors in
      let errors := push_if (blank (d_genre d)) "Genre is required" errors in
      let errors := push_if (blank (d_publishedDate d)) "Published date is required" errors in
      let errors := push_if (blank (d_description d)) "Description is required" errors in
      push_if (match d_totalPages d with None => true | Some _ => false end)
        "Total pages is required" errors
    else errors in
  let errors :=
    push_if (match d_isbn d with
             | Some s => truthy (Some s) && negb (isbn_regex (strip_isbn s))
             | None => false end)
      "Invalid ISBN format (should be 10 or 13 digits)" errors in
  let errors :=
    push_if (match d_publishedDate d with
             | Some s => truthy (Some s) && negb (date_regex s)
             | None => false end)
      "Invalid date format (should be YYYY-MM-DD)" errors in
  let errors :=
    push_if (match d_totalPages d with
             | Some n => (n <? 1) || (10000 <? n)
             | None => false end)
      "Total pages must be between 1 and 10000" errors in
  let errors :=
    push_if (match d_rating d with
             | Some r => (r <? 0) || (5 <? r)
             | None => false end)
      "Rating must be between 0 and 5" errors in
  let errors :=
    push_if (match d_authorId d with
             | Some s => truthy (Some s) && negb (ObjectId_isValid s)
             | None => false end)
      "Invalid author ID format" errors in
  ((length errors =? 0)%nat, errors).

(* ------------------------------------------------------------------ *)
(** ** Book operations *)

(** The value of a field that validation has checked to be present. *)
Definition sval (o : option string) : string :=
  match o with Some s => s | None => EmptyString end.

(** [getBookById] (the [$lookup] of the author is not modelled). *)
Definition getBookById (id : string) : M Book :=
  guard (negb (ObjectId_isValid id)) EInvalidBookId ;;;
  db <- get ;;
  match find_first (book_has_id (new_ObjectId id)) (books db) with
  | None => throw EBookNotFound
  | Some b => ret b
  end.

(** [createBook]: [fresh] is the [insertedId] the store generates. *)
Definition createBook (d : BookData) (fresh : string) (now : Z) : M Book :=
  let (isValid, errors) := validateBookData d false in
  guard (negb isValid) (EValidation errors) ;;;
  db <- get ;;
  let isbn_in := sval (d_isbn d) in
  let authorId_in := sval (d_authorId d) in
  match find_first (fun b => String.eqb (isbn b) (trim isbn_in)) (books db) with
  | Some _ => throw EIsbnExists
  | None =>
    match find_first (author_has_id (new_ObjectId authorId_in)) (authors db) with
    | None => throw EAuthorNotFound
    | Some _ =>
      let newBook := {|
        b_id := fresh;
        title := trim (sval (d_title d));
        authorId := new_ObjectId authorId_in;
        isbn := strip_isbn (trim isbn_in);
        genre := trim (sval (d_genre d));
        publishedDate := trim (sval (d_publishedDate d));
        description := trim (sval (d_description d));
        totalPages := match d_totalPages d with Some n => n | None => 0 end;
        availability := match d_availability d with Some v => v | None => true end;
        rating := match d_rating d with Some r => r | None => 0 end;
        borrowedBy := None;
        borrowedDate := None;
        returnDueDate := None;
        b_createdAt := now;
        b_updatedAt := now |} in
      put (set_books db (books db ++ [newBook])) ;;;
      ret newBook
    end
  end.

(** The [$set: updateFields] of [updateBookById]. *)
Definition setBookUpdateFields (d : BookData) (now : Z) (b : Book) : Book := {|
  b_id := b_id b;
  title := if truthy (d_title d) then trim (sval (d_title d)) else title b;
  authorId := if truthy (d_authorId d) then new_ObjectId (sval (d_authorId d)) else authorId b;
  isbn := if truthy (d_isbn d) then strip_isbn (trim (sval (d_isbn d))) else isbn b;
  genre := if truthy (d_genre d) then trim (sval (d_genre d)) else genre b;
  publishedDate := if truthy (d_publishedDate d)
                   then trim (sval (d_publishedDate d)) else publishedDate b;
  description := if truthy (d_description d)
                 then trim (sval (d_description d)) else description b;
  totalPages := match d_totalPages d with
                | Some n => if n =? 0 then totalPages b else n   (* 0 is falsy *)
                | None => totalPages b end;
  availability := match d_availability d with Some v => v | None => availability b end;
  rating := match d_rating d with Some r => r | None => rating b end;
  borrowedBy := borrowedBy b;
  borrowedDate := borrowedDate b;
  returnDueDate := returnDueDate b;
  b_createdAt := b_createdAt b;
  b_updatedAt := now |}.

Definition updateBookById (id : string) (d : BookData) (now : Z) : M Book :=
  guard (negb (ObjectId_isValid id)) EInvalidBookId ;;;
  let (isValid, errors) := validateBookData d true in
  guard (negb isValid) (EValidation errors) ;;;
  db <- get ;;
  (if truthy (d_isbn d) then
     match find_first (fun b => String.eqb (isbn b) (strip_isbn (trim (sval (d_isbn d))))
                                && negb (String.eqb (b_id b) (new_ObjectId id))) (books db) with
     | Some _ => throw EIsbnExistsOther
     | None => ret tt
     end
   else ret tt) ;;;
  (if truthy (d_authorId d) && ObjectId_isValid (sval (d_authorId d)) then
     match find_first (author_has_id (new_ObjectId (sval (d_authorId d)))) (authors db) with
     | None => throw EAuthorNotFound
     | Some _ => ret tt
     end
   else ret tt) ;;;
  matched <- updateOneBook (new_ObjectId id) (setBookUpdateFields d now) ;;
  guard (Nat.eqb matched 0) EBookNotFound ;;;
  getBookById id.

(** [deleteBookById]: the confirmation [{ message, deletedBook }]. *)
Definition deleteBookById (id : string) : M (string * string) :=
  guard (negb (ObjectId_isValid id)) EInvalidBookId ;;;
  db <- get ;;
  match find_first (book_has_id (new_ObjectId id)) (books db) with
  | None => throw EBookNotFound
  | Some book =>
    guard (truthy (borrowedBy book)) EBookBorrowed ;;;
    deleted <- deleteOneBook (new_ObjectId id) ;;
    guard (Nat.eqb deleted 0) EBookNotFound ;;;
    ret ("Book deleted successfully", title book)
  end.

(** [d.setDate(d.getDate() + n)], for [n] days of 24 hours. *)
Definition add_days (t n : Z) : Z := t + n * 86400000.

Definition borrowFields (borrowerInfo : string) (now : Z) (b : Book) : Book :=
  {| b_id := b_id b; title := title b; authorId := authorId b; isbn := isbn b;
     genre := genre b; publishedDate := publishedDate b; description := description b;
     totalPages := totalPages b;
     availability := false;
     rating := rating b;
     borrowedBy := Some (trim borrowerInfo);
     borrowedDate := Some now;
     returnDueDate := Some (add_days now 14);
     b_createdAt := b_createdAt b;
     b_updatedAt := now |}.

Definition borrowBook (id borrowerInfo : string) (now : Z) : M Book :=
  guard (negb (ObjectId_isValid id)) EInvalidBookId ;;;
  db <- get ;;
  match find_first (book_has_id (new_ObjectId id)) (books db) with
  | None => throw EBookNotFound
  | Some book =>
    guard (negb (availability book)) ENotAvailable ;;;
    matched <- updateOneBook (new_ObjectId id) (borrowFields borrowerInfo now) ;;
    guard (Nat.eqb matched 0) EBookNotFound ;;;
    getBookById id
  end.

Definition returnFields (now : Z) (b : Book) : Book :=
  {| b_id := b_id b; title := title b; authorId := authorId b; isbn := isbn b;
     genre := genre b; publishedDate := publishedDate b; description := description b;
     totalPages := totalPages b;
     availability := true;
     rating := rating b;
     borrowedBy := None;
     borrowedDate := None;
     returnDueDate := None;
     b_createdAt := b_createdAt b;
     b_updatedAt := now |}.

Definition returnBook (id : string) (now : Z) : M Book :=
  guard (negb (ObjectId_isValid id)) EInvalidBookId ;;;
  db <- get ;;
  match find_first (book_has_id (new_ObjectId id)) (books db) with
  | None => throw EBookNotFound
  | Some book =>
    guard (availability book) ENotBorrowed ;;;
    matched <- updateOneBook (new_ObjectId id) (returnFields now) ;;
    guard (Nat.eqb matched 0) EBookNotFound ;;;
    getBookById id
  end.

(** [POST /books/:id/borrow] (after [requireAuth]): the HTTP status, the
    borrowed book on success, and the store. *)
Definition route_borrow (id : string) (borrowerInfo : option string) (now : Z)
  : DB -> (Z * option Book) * DB :=
  fun db =>
    if blank borrowerInfo then ((400, None), db)
    else match borrowBook id (sval borrowerInfo) now db with
         | inr (b, db') => ((200, Some b), db')
         | inl e =>
           match e with
           | EInvalidBookId | EBookNotFound => ((404, None), db)
           | ENotAvailable => ((400, None), db)
           | _ => ((500, None), db)
           end
         end.

(* ------------------------------------------------------------------ *)
(** ** Authors *)

(** Request payload of an author ([authorData] / [updateData]); the two
    fields [socialMedia] and [awards] are taken as an object of optional
    strings and an array of strings when supplied. *)
Record AuthorData := mkAuthorData {
  ad_name : option string;
  ad_bio : option string;
  ad_birthDate : option string;
  ad_nationality : option string;
  ad_email : option string;
  ad_website : option string;
  ad_socialMedia : option SocialMedia;
  ad_awards : option (list string);
  ad_isActive : option bool       (* [Boolean(v)] of the supplied value *)
}.

Definition emptyAuthorData : AuthorData :=
  mkAuthorData None None None None None None None None None.

Definition author_has_email (e : string) (a : Author) : bool :=
  match email a with Some e' => String.eqb e' e | None => false end.

(** [x ? x.trim() : null] *)
Definition trim_or_null (o : option string) : option string :=
  if truthy o then Some (trim (sval o)) else None.

Definition social_of (sm : SocialMedia) : SocialMedia :=
  mkSocial (trim_or_null (twitter sm)) (trim_or_null (instagram sm))
           (trim_or_null (facebook sm)) (trim_or_null (linkedin sm)).

Definition updateOneAuthor (oid : string) (f : Author -> Author) : M nat :=
  fun db =>
    match find_first (author_has_id oid) (authors db) with
    | None => inr (0%nat, db)
    | Some _ => inr (1%nat, set_authors db (update_first (author_has_id oid) f (authors db)))
    end.

Definition deleteOneAuthor (oid : string) : M nat :=
  fun db =>
    match find_first (author_has_id oid) (authors db) with
    | None => inr (0%nat, db)
    | Some _ => inr (1%nat, set_authors db (remove_first (author_has_id oid) (authors db)))
    end.

Section AuthorOps.

(** [new Date(s)] as a timestamp, [None] for an Invalid Date (which compares
    false with every date). *)
Variable Date_parse : string -> option Z.

Definition validateAuthorData (d : AuthorData) (isUpdate : bool) (now : Z)
  : bool * list string :=
  let errors := [] in
  let errors :=
    if negb isUpdate then
      let errors := push_if (blank (ad_name d)) "Name is required" errors in
      let errors := push_if (blank (ad_bio d)) "Bio is required" errors in
      let errors := push_if (blank (ad_birthDate d)) "Birth date is required" errors in
      push_if (blank (ad_nationality d)) "Nationality is required" errors
    else errors in
  let errors :=
    push_if (truthy (ad_birthDate d) && negb (date_regex (sval (ad_birthDate d))))
      "Invalid birth date format (should be YYYY-MM-DD)" errors in
  let errors :=
    push_if (truthy (ad_email d) && negb (email_regex (sval (ad_email d))))
      "Invalid email format" errors in
  let errors :=
    push_if (truthy (ad_website d) && negb (starts_with "http" (sval (ad_website d))))
      "Website must start with http:// or https://" errors in
  let errors :=
    push_if (truthy (ad_birthDate d) &&
             match Date_parse (sval (ad_birthDate d)) with
             | Some t => now <? t
             | None => false
             end)
      "Birth date cannot be in the future" errors in
  ((length errors =? 0)%nat, errors).

(** [getAuthorById] (the [$lookup] of the books is not modelled). *)
Definition getAuthorById (id : string) : M Author :=
  guard (negb (ObjectId_isValid id)) EInvalidAuthorId ;;;
  db <- get ;;
  match find_first (author_has_id (new_ObjectId id)) (authors db) with
  | None => throw EAuthorNotFound
  | Some a => ret a
  end.

Definition createAuthor (d : AuthorData) (fresh : string) (now : Z) : M Author :=
  let (isValid, errors) := validateAuthorData d false now in
  guard (negb isValid) (EValidation errors) ;;;
  db <- get ;;
  (if truthy (ad_email d) then
     match find_first (author_has_email (to_lower (trim (sval (ad_email d))))) (authors db) with
     | Some _ => throw EEmailExists
     | None => ret tt
     end
   else ret tt) ;;;
  let newAuthor := {|
    a_id := fresh;
    name := trim (sval (ad_name d));
    bio := trim (sval (ad_bio d));
    birthDate := trim (sval (ad_birthDate d));
    nationality := trim (sval (ad_nationality d));
    email := if truthy (ad_email d) then Some (to_lower (trim (sval (ad_email d)))) else None;
    website := trim_or_null (ad_website d);
    socialMedia := social_of (match ad_socialMedia d with
                              | Some sm => sm
                              | None => mkSocial None None None None end);
    awards := match ad_awards d with Some l => map trim l | None => [] end;
    isActive := true;
    a_createdAt := now;
    a_updatedAt := now |} in
  put (set_authors db (authors db ++ [newAuthor])) ;;;
  ret newAuthor.

(** The [$set: updateFields] of [updateAuthorById]. *)
Definition setAuthorUpdateFields (d : AuthorData) (now : Z) (a : Author) : Author := {|
  a_id := a_id a;
  name := if truthy (ad_name d) then trim (sval (ad_name d)) else name a;
  bio := if truthy (ad_bio d) then trim (sval (ad_bio d)) else bio a;
  birthDate := if truthy (ad_birthDate d) then trim (sval (ad_birthDate d)) else birthDate a;
  nationality := if truthy (ad_nationality d)
                 then trim (sval (ad_nationality d)) else nationality a;
  email := if truthy (ad_email d) then Some (to_lower (trim (sval (ad_email d)))) else email a;
  website := match ad_website d with
             | Some w => trim_or_null (Some w)
             | None => website a end;
  socialMedia := match ad_socialMedia d with
                 | Some sm => social_of sm
                 | None => socialMedia a end;
  awards := match ad_awards d with Some l => map trim l | None => awards a end;
  isActive := match ad_isActive d with Some v => v | None => isActive a end;
  a_createdAt := a_createdAt a;
  a_updatedAt := now |}.

Definition updateAuthorById (id : string) (d : AuthorData) (now : Z) : M Author :=
  guard (negb (ObjectId_isValid id)) EInvalidAuthorId ;;;
  let (isValid, errors) := validateAuthorData d true now in
  guard (negb isValid) (EValidation errors) ;;;
  db <- get ;;
  (if truthy (ad_email d) then
     match find_first (fun a => author_has_email (to_lower (trim (sval (ad_email d)))) a
                              && negb (String.eqb (a_id a) (new_ObjectId id))) (authors db) with
     | Some _ => throw EEmailExistsOther
     | None => ret tt
     end
   else ret tt) ;;;
  matched <- updateOneAuthor (new_ObjectId id) (setAuthorUpdateFields d now) ;;
  guard (Nat.eqb matched 0) EAuthorNotFound ;;;
  getAuthorById id.

End AuthorOps.

(** [deleteAuthorById]: the confirmation [{ message, deletedAuthor }]. *)
Definition deleteAuthorById (id : string) : M (string * string) :=
  guard (negb (ObjectId_isValid id)) EInvalidAuthorId ;;;
  db <- get ;;
  match find_first (author_has_id (new_ObjectId id)) (authors db) with
  | None => throw EAuthorNotFound
  | Some author =>
    let booksCount := count_docs (fun b => String.eqb (authorId b) (new_ObjectId id)) (books db) in
    guard (Nat.ltb 0 booksCount) (EAuthorHasBooks booksCount) ;;;
    deleted <- deleteOneAuthor (new_ObjectId id) ;;
    guard (Nat.eqb deleted 0) EAuthorNotFound ;;;
    ret ("Author deleted successfully", name author)
  end.

(* ------------------------------------------------------------------ *)
(** ** Sample data and notions used by the statements *)

Definition oidA : string := "aaaaaaaaaaaaaaaaaaaaaaaa".
Definition oidB1 : string := "bbbbbbbbbbbbbbbbbbbbbbb1".
Definition oidB2 : string := "bbbbbbbbbbbbbbbbbbbbbbb2".

Definition author0 : Author := {|
  a_id := oidA; name := "Test"; bio := "x"; birthDate := "1980-01-01";
  nationality := "T"; email := None; website := None;
  socialMedia := mkSocial None None None None; awards := []; isActive := true;
  a_createdAt := 0; a_updatedAt := 0 |}.

Definition db0 : DB := mkDB [author0] [].

(** A valid book payload with the given ISBN and availability. *)
Definition bookPayload (i : string) (av : option bool) : BookData :=
  mkBookData (Some "B1") (Some oidA) (Some i) (Some "G") (Some "2020-01-01")
             (Some "d") (Some 100) None av.

(** The book stored by creating [bookPayload "1234567890" None] in [db0]. *)
Definition book1 : Book := {|
  b_id := oidB1; title := "B1"; authorId := oidA; isbn := "1234567890";
  genre := "G"; publishedDate := "2020-01-01"; description := "d";
  totalPages := 100; availability := true; rating := 0;
  borrowedBy := None; borrowedDate := None; returnDueDate := None;
  b_createdAt := 0; b_updatedAt := 0 |}.

Definition db1 : DB := mkDB [author0] [book1].

(** The book / author an id resolves to, as [findOne({ _id: new ObjectId(id) })]
    after the [ObjectId.isValid] check. *)
Definition resolve_book (db : DB) (id : string) : option Book :=
  if ObjectId_isValid id then find_first (book_has_id (new_ObjectId id)) (books db) else None.

Definition resolve_author (db : DB) (id : string) : option Author :=
  if ObjectId_isValid id then find_first (author_has_id (new_ObjectId id)) (authors db) else None.

(** [borrowedBy] is set: truthy, the test of [deleteBookById]. *)
Definition borrowedBy_set (b : Book) : bool := truthy (borrowedBy b).

(** The lending invariant: [availability == false] iff [borrowedBy] is set. *)
Definition lending_ok (b : Book) : Prop := availability b = false <-> borrowedBy_set b = true.
Definition lending_inv (db : DB) : Prop := Forall lending_ok (books db).

(** A record with only [updatedAt] replaced. *)
Definition touch_book (now : Z) (b : Book) : Book :=
  {| b_id := b_id b; title := title b; authorId := authorId b; isbn := isbn b;
     genre := genre b; publishedDate := publishedDate b; description := description b;
     totalPages := totalPages b; availability := availability b; rating := rating b;
     borrowedBy := borrowedBy b; borrowedDate := borrowedDate b;
     returnDueDate := returnDueDate b; b_createdAt := b_createdAt b; b_updatedAt := now |}.

Definition touch_author (now : Z) (a : Author) : Author :=
  {| a_id := a_id a; name := name a; bio := bio a; birthDate := birthDate a;
     nationality := nationality a; email := email a; website := website a;
     socialMedia := socialMedia a; awards := awards a; isActive := isActive a;
     a_createdAt := a_createdAt a; a_updatedAt := now |}.

(** Case analysis of a run [op db = inr (x, db')] or [op db = inl e]:
    split on the innermost [match] / [if] until the run is a value. *)
Ltac run_cases H :=
  cbv beta iota zeta in H;
  repeat (match type of H with
          | context [match ?x with _ => _ end] =>
              lazymatch x with
              | context [match _ with _ => _ end] => fail
              | _ => let E := fresh "E" in destruct x eqn:E
              end
          end; cbv beta iota zeta in H; try discriminate H).

Ltac unfold_M H :=
  unfold getBookById, getAuthorById in H;
  unfold bind, guard, ret, throw, get, put, updateOneBook, deleteOneBook,
    updateOneAuthor, deleteOneAuthor in H.

(** The number of stored books whose [authorId] is [new ObjectId(id)]
    ([countDocuments({ authorId })]). *)
Definition author_book_count (db : DB) (id : string) : nat :=
  count_docs (fun b => String.eqb (authorId b) (new_ObjectId id)) (books db).

(** [db1] with [book1] on loan to Alice. *)
Definition db1_loaned : DB := mkDB [author0] [borrowFields "Alice" 5 book1].

Definition oidC : string := "cccccccccccccccccccccccc".

(** The validation rules of [validateBookData], one by one. *)
Inductive BookRule :=
  | BR_title_req | BR_author_req | BR_isbn_req | BR_genre_req | BR_date_req
  | BR_desc_req | BR_pages_req
  | BR_isbn_fmt | BR_date_fmt | BR_pages_range | BR_rating_range | BR_author_fmt.

Definition book_rules : list BookRule :=
  [BR_title_req; BR_author_req; BR_isbn_req; BR_genre_req; BR_date_req;
   BR_desc_req; BR_pages_req;
   BR_isbn_fmt; BR_date_fmt; BR_pages_range; BR_rating_range; BR_author_fmt].

Definition book_rule_msg (r : BookRule) : string :=
  match r with
  | BR_title_req => "Title is required"
  | BR_author_req => "Author ID is required"
  | BR_isbn_req => "ISBN is required"
  | BR_genre_req => "Genre is required"
  | BR_date_req => "Published date is required"
  | BR_desc_req => "Description is required"
  | BR_pages_req => "Total pages is required"
  | BR_isbn_fmt => "Invalid ISBN format (should be 10 or 13 digits)"
  | BR_date_fmt => "Invalid date format (should be YYYY-MM-DD)"
  | BR_pages_range => "Total pages must be between 1 and 10000"
  | BR_rating_range => "Rating must be between 0 and 5"
  | BR_author_fmt => "Invalid author ID format"
  end.

(** Whether the payload violates a rule; required-field rules apply on
    creation only. *)
Definition book_rule_violated (d : BookData) (isUpdate : bool) (r : BookRule) : bool :=
  match r with
  | BR_title_req => negb isUpdate && blank (d_title d)
  | BR_author_req => negb isUpdate && blank (d_authorId d)
  | BR_isbn_req => negb isUpdate && blank (d_isbn d)
  | BR_genre_req => negb isUpdate && blank (d_genre d)
  | BR_date_req => negb isUpdate && blank (d_publishedDate d)
  | BR_desc_req => negb isUpdate && blank (d_description d)
  | BR_pages_req => negb isUpdate && match d_totalPages d with Some _ => false | None => true end
  | BR_isbn_fmt => truthy (d_isbn d) && negb (isbn_regex (strip_isbn (sval (d_isbn d))))
  | BR_date_fmt => truthy (d_publishedDate d) && negb (date_regex (sval (d_publishedDate d)))
  | BR_pages_range =>
      match d_totalPages d with Some n => (n <? 1) || (10000 <? n) | None => false end
  | BR_rating_range =>
      match d_rating d with Some r => (r <? 0) || (5 <? r) | None => false end
  | BR_author_fmt => truthy (d_authorId d) && negb (ObjectId_isValid (sval (d_authorId d)))
  end.

(** The validation rules of [validateAuthorData]. *)
Inductive AuthorRule :=
  | AR_name_req | AR_bio_req | AR_birth_req | AR_nat_req
  | AR_birth_fmt | AR_email_fmt | AR_website_fmt | AR_birth_future.

Definition author_rules : list AuthorRule :=
  [AR_name_req; AR_bio_req; AR_birth_req; AR_nat_req;
   AR_birth_fmt; AR_email_fmt; AR_website_fmt; AR_birth_future].

Definition author_rule_msg (r : AuthorRule) : string :=
  match r with
  | AR_name_req => "Name is required"
  | AR_bio_req => "Bio is required"
  | AR_birth_req => "Birth date is required"
  | AR_nat_req => "Nationality is required"
  | AR_birth_fmt => "Invalid birth date format (should be YYYY-MM-DD)"
  | AR_email_fmt => "Invalid email format"
  | AR_website_fmt => "Website must start with http:// or https://"
  | AR_birth_future => "Birth date cannot be in the future"
  end.

Definition author_rule_violated (Date_parse : string -> option Z) (now : Z)
    (d : AuthorData) (isUpdate : bool) (r : AuthorRule) : bool :=
  match r with
  | AR_name_req => negb isUpdate && blank (ad_name d)
  | AR_bio_req => negb isUpdate && blank (ad_bio d)
  | AR_birth_req => negb isUpdate && blank (ad_birthDate d)
  | AR_nat_req => negb isUpdate && blank (ad_nationality d)
  | AR_birth_fmt => truthy (ad_birthDate d) && negb (date_regex (sval (ad_birthDate d)))
  | AR_email_fmt => truthy (ad_email d) && negb (email_regex (sval (ad_email d)))
  | AR_website_fmt => truthy (ad_website d) && negb (starts_with "http" (sval (ad_website d)))
  | AR_birth_future =>
      truthy (ad_birthDate d) &&
      match Date_parse (sval (ad_birthDate d)) with Some t => now <? t | None => false end
  end.

(** A payload field that is absent or the empty string. *)
Definition empty_or_absent (o : option string) : Prop := o = None \/ o = Some EmptyString.

(* ------------------------------------------------------------------ *)
(** ** [addAwardToAuthor] *)

(** The errors of [addAwardToAuthor]: those of [err], and
    'Award description is required'. *)
Inductive award_err := AwardErr (e : err) | EAwardRequired.

(** [$addToSet: { awards: x }]: appended when absent. *)
Definition add_to_set (x : string) (l : list string) : list string :=
  if existsb (String.eqb x) l then l else (l ++ [x])%list.

Definition addAwardFields (award : string) (now : Z) (a : Author) : Author :=
  {| a_id := a_id a; name := name a; bio := bio a; birthDate := birthDate a;
     nationality := nationality a; email := email a; website := website a;
     socialMedia := socialMedia a;
     awards := add_to_set (trim award) (awards a);
     isActive := isActive a; a_createdAt := a_createdAt a; a_updatedAt := now |}.

Definition addAwardToAuthor (id : string) (award : option string) (now : Z) (db : DB)
  : award_err + (Author * DB) :=
  if negb (ObjectId_isValid id) then inl (AwardErr EInvalidAuthorId)
  else if blank award then inl EAwardRequired
  else match updateOneAuthor (new_ObjectId id) (addAwardFields (sval award) now) db with
       | inl e => inl (AwardErr e)
       | inr (matched, db') =>
           if Nat.eqb matched 0 then inl (AwardErr EAuthorNotFound)
           else match getAuthorById id db' with
                | inl e => inl (AwardErr e)
                | inr r => inr r
                end
       end.

(* ------------------------------------------------------------------ *)
(** ** Error messages and the book routes *)

(** [errors.join(sep)] *)
Fixpoint join (sep : string) (l : list string) : string :=
  match l with
  | [] => EmptyString
  | [x] => x
  | x :: r => (x ++ sep ++ join sep r)%string
  end.

Fixpoint nat_digits (fuel n : nat) (acc : string) : string :=
  match fuel with
  | O => acc
  | S f =>
      let acc' := String (ascii_of_nat (48 + n mod 10)) acc in
      if Nat.ltb n 10 then acc' else nat_digits f (n / 10) acc'
  end.

(** A [nat] in decimal, as a template literal prints it. *)
Definition nat_to_string (n : nat) : string := nat_digits (S n) n EmptyString.

(** The message of the [Error] each constructor stands for. *)
Definition err_text (e : err) : string :=
  match e with
  | EInvalidBookId => "Invalid book ID format"
  | EInvalidAuthorId => "Invalid author ID format"
  | EValidation errors => "Validation failed: " ++ join ", " errors
  | EIsbnExists => "Book with this ISBN already exists"
  | EIsbnExistsOther => "Another book with this ISBN already exists"
  | EEmailExists => "Author with this email already exists"
  | EEmailExistsOther => "Another author with this email already exists"
  | EAuthorNotFound => "Author not found"
  | EBookNotFound => "Book not found"
  | EBookBorrowed => "Cannot delete book that is currently borrowed"
  | ENotAvailable => "Book is not available for borrowing"
  | ENotBorrowed => "Book is not currently borrowed"
  | EAuthorHasBooks n =>
      "Cannot delete author who has " ++ nat_to_string n
      ++ " book(s) in the system. Please remove or reassign the books first."
  end.

(** [s.includes(sub)] *)
Fixpoint includes (sub s : string) : bool :=
  String.prefix sub s || match s with EmptyString => false | String _ r => includes sub r end.

(** A route's answer: the HTTP status and the payload's [data], if any. *)
Definition Answer (A : Type) : Type := (Z * option A) * DB.

(** [POST /books] behind [requireAuth]; the [catch] block's status mapping
    applied to the errors of the [createBook] model.  Exceptions that model
    does not raise (a [TypeError] from a non-string payload field, a
    database failure) are not represented; the route answers those 500. *)
Definition route_create_book (authenticated : bool) (d : BookData) (fresh : string) (now : Z)
    (db : DB) : Answer Book :=
  if negb authenticated then ((401, None), db) else
  match createBook d fresh now db with
  | inr (b, db') => ((201, Some b), db')
  | inl e =>
      let m := ("Error creating book: " ++ err_text e)%string in
      if includes "required" m || includes "Invalid" m || includes "already exists" m
         || includes "Validation failed" m then ((400, None), db)
      else if includes "not found" m then ((404, None), db)
      else ((500, None), db)
  end.

(** [PUT /books/:id] behind [requireAuth]. *)
Definition route_update_book (authenticated : bool) (id : string) (d : BookData) (now : Z)
    (db : DB) : Answer Book :=
  if negb authenticated then ((401, None), db) else
  match updateBookById id d now db with
  | inr (b, db') => ((200, Some b), db')
  | inl e =>
      let m := ("Error updating book: " ++ err_text e)%string in
      if includes "Invalid" m || includes "not found" m then ((404, None), db)
      else if includes "already exists" m || includes "Validation failed" m then ((400, None), db)
      else ((500, None), db)
  end.

(** [DELETE /books/:id] behind [requireAuth]. *)
Definition route_delete_book (authenticated : bool) (id : string) (db : DB)
  : Answer (string * string) :=
  if negb authenticated then ((401, None), db) else
  match deleteBookById id db with
  | inr (r, db') => ((200, Some r), db')
  | inl e =>
      let m := ("Error deleting book: " ++ err_text e)%string in
      if includes "Invalid" m || includes "not found" m then ((404, None), db)
      else if includes "borrowed" m then ((400, None), db)
      else ((500, None), db)
  end.

(** [POST /books/:id/return] behind [requireAuth]. *)
Definition route_return_book (authenticated : bool) (id : string) (now : Z) (db : DB)
  : Answer Book :=
  if negb authenticated then ((401, None), db) else
  match returnBook id now db with
  | inr (b, db') => ((200, Some b), db')
  | inl e =>
      let m := ("Error returning book: " ++ err_text e)%string in
      if includes "Invalid" m || includes "not found" m then ((404, None), db)
      else if includes "not currently borrowed" m then ((400, None), db)
      else ((500, None), db)
  end.

(** [GET /books/:id] (no authentication). *)
Definition route_get_book (id : string) (db : DB) : Answer Book :=
  match getBookById id db with
  | inr (b, db') => ((200, Some b), db')
  | inl e =>
      let m := ("Error fetching book: " ++ err_text e)%string in
      if includes "Invalid" m || includes "not found" m then ((404, None), db)
      else ((500, None), db)
  end.

(* ------------------------------------------------------------------ *)
(** ** [GET /books]: query parsing and the pipeline of [getAllBooks] *)

(** A JavaScript number as far as the listing uses it: an integer, or NaN
    (integers are exact below 2^53, where [String(n)] are its digits, so that
    [parseInt(n)] is [n]). *)
Inductive num := NaN | Num (z : Z).

Definition dec_val (c : ascii) : option Z :=
  if is_digit c then Some (code c - 48) else None.

Definition hex_val (c : ascii) : option Z :=
  let n := code c in
  if is_digit c then Some (n - 48)
  else if (97 <=? n) && (n <=? 102) then Some (n - 87)
  else if (65 <=? n) && (n <=? 70) then Some (n - 55)
  else None.

(** The value of the longest prefix of digits. *)
Fixpoint read_digits (dv : ascii -> option Z) (base : Z) (s : string) (acc : option Z)
  : option Z :=
  match s with
  | EmptyString => acc
  | String c r =>
      match dv c with
      | Some v => read_digits dv base r (Some (match acc with Some a => a * base + v | None => v end))
      | None => acc
      end
  end.

(** [parseInt(s)] (no radix): leading white space, a sign, a [0x] prefix for
    hexadecimal, then the longest run of digits; NaN when there is none. *)
Definition js_parseInt (s0 : string) : num :=
  let s1 := trim_left s0 in
  let '(sign, s2) :=
    match s1 with
    | String c r =>
        if Ascii.eqb c "-"%char then (-1, r)
        else if Ascii.eqb c "+"%char then (1, r) else (1, s1)
    | EmptyString => (1, s1)
    end in
  let '(hex, s3) :=
    match s2 with
    | String z (String x r) =>
        if Ascii.eqb z "0"%char && (Ascii.eqb x "x"%char || Ascii.eqb x "X"%char)
        then (true, r) else (false, s2)
    | _ => (false, s2)
    end in
  match read_digits (if hex then hex_val else dec_val) (if hex then 16 else 10) s3 None with
  | Some v => Num (sign * v)
  | None => NaN
  end.

(** [Math.max(k, x)], [Math.min(k, x)], [x - k], [x * y] with NaN. *)
Definition js_max (k : Z) (x : num) : num := match x with Num n => Num (Z.max k n) | NaN => NaN end.
Definition js_min (k : Z) (x : num) : num := match x with Num n => Num (Z.min k n) | NaN => NaN end.
Definition js_sub (x : num) (k : Z) : num := match x with Num n => Num (n - k) | NaN => NaN end.
Definition js_mul (x y : num) : num :=
  match x, y with Num a, Num b => Num (a * b) | _, _ => NaN end.

(** Truthiness of a number: [0] and NaN are falsy. *)
Definition num_truthy (x : num) : bool := match x with Num n => negb (n =? 0) | NaN => false end.

(** The query string of [GET /books]. *)
Record BooksQuery := mkBooksQuery {
  rq_genre : option string;
  rq_authorId : option string;
  rq_availability : option string;
  rq_sortBy : option string;
  rq_sortOrder : option string;
  rq_page : option string;
  rq_limit : option string
}.

Record BookFilters := mkBookFilters {
  f_genre : option string;
  f_authorId : option string;
  f_availability : option bool
}.

Record ListOptions := mkListOptions {
  o_sortBy : option string;
  o_sortOrder : option string;
  o_skip : option num;
  o_limit : option num
}.

(** The [$match] query of [getAllBooks]: the genre pattern source (matched
    case-insensitively), the author's ObjectId, the availability. *)
Record BookQuery := mkBookQuery {
  q_genre : option string;
  q_authorId : option string;
  q_availability : option bool
}.

Inductive Stage :=
  | SMatch (q : BookQuery)
  | SLookupAuthor          (* $lookup from 'authors' on authorId, as 'author' *)
  | SUnwindAuthor          (* $unwind '$author', preserveNullAndEmptyArrays *)
  | SSort (field : string) (order : Z)
  | SSkip (n : Z)
  | SLimit (n : Z).

Definition opt_truthy (o : option string) : option string := if truthy o then o else None.

(** [pageNum] and [limitNum] of the route. *)
Definition page_num (q : BooksQuery) : num :=
  js_max 1 (match rq_page q with Some s => js_parseInt s | None => Num 1 end).

Definition limit_num (q : BooksQuery) : num :=
  js_min 50 (js_max 1 (match rq_limit q with Some s => js_parseInt s | None => Num 10 end)).

(** The [filters] and [options] the route passes to [getAllBooks]. *)
Definition route_list_filters (q : BooksQuery) : BookFilters :=
  {| f_genre := opt_truthy (rq_genre q);
     f_authorId := opt_truthy (rq_authorId q);
     f_availability := match rq_availability q with
                       | Some s => Some (String.eqb s "true")
                       | None => None end |}.

Definition route_list_options (q : BooksQuery) : ListOptions :=
  {| o_sortBy := opt_truthy (rq_sortBy q);
     o_sortOrder := opt_truthy (rq_sortOrder q);
     o_skip := Some (js_mul (js_sub (page_num q) 1) (limit_num q));
     o_limit := Some (limit_num q) |}.

Section Listing.

(** Whether [new RegExp(source, 'i')] accepts the pattern (it throws a
    SyntaxError otherwise). *)
Variable RegExp_valid : string -> bool.

(** The aggregation pipeline [getAllBooks] builds, or [None] when building it
    throws ('Error fetching books: ...').  [$skip: parseInt(options.skip)]
    and [$limit: parseInt(options.limit)] are taken as [n] itself: the
    model's numbers are exact integers, which is what JavaScript computes
    while the values stay below 2^53 (then [String(n)] is the digits of [n]
    and [parseInt] gives [n] back).  Larger values, which JavaScript rounds
    and from 1e21 on prints in exponent notation, are outside the model. *)
Definition getAllBooks_pipeline (filters : BookFilters) (options : ListOptions)
  : option (list Stage) :=
  if truthy (f_genre filters) && negb (RegExp_valid (sval (f_genre filters))) then None
  else
  let query := {|
    q_genre := opt_truthy (f_genre filters);
    q_authorId := if truthy (f_authorId filters) && ObjectId_isValid (sval (f_authorId filters))
                  then Some (new_ObjectId (sval (f_authorId filters))) else None;
    q_availability := f_availability filters |} in
  Some ([SMatch query; SLookupAuthor; SUnwindAuthor;
         if truthy (o_sortBy options)
         then SSort (sval (o_sortBy options))
                    (if truthy (o_sortOrder options)
                        && String.eqb (sval (o_sortOrder options)) "desc" then -1 else 1)
         else SSort "createdAt" (-1)]
        ++ match o_skip options with
           | Some (Num n) => if num_truthy (Num n) then [SSkip n] else []
           | _ => []
           end
        ++ match o_limit options with
           | Some (Num n) => if num_truthy (Num n) then [SLimit n] else []
           | _ => []
           end)%list.

(** The pipeline [GET /books] makes [getAllBooks] run. *)
Definition route_list_pipeline (q : BooksQuery) : option (list Stage) :=
  getAllBooks_pipeline (route_list_filters q) (route_list_options q).

End Listing.

(** Every stored book's [authorId] names a stored author. *)
Definition refs_ok (db : DB) : Prop :=
  Forall (fun b => exists a, find_first (author_has_id (authorId b)) (authors db) = Some a)
         (books db).

(** An update payload with only an ISBN / only an email. *)
Definition isbnPayload (i : string) : BookData :=
  mkBookData None None (Some i) None None None None None None.

Definition emailPayload (e : string) : AuthorData :=
  mkAuthorData None None None None (Some e) None None None None.

(** [parseInt(page)] and [parseInt(limit)] of [GET /books], with the
    destructuring defaults [page = 1] and [limit = 10]. *)
Definition page_arg (q : BooksQuery) : num :=
  match rq_page q with Some s => js_parseInt s | None => Num 1 end.

Definition limit_arg (q : BooksQuery) : num :=
  match rq_limit q with Some s => js_parseInt s | None => Num 10 end.

(** The same query without an [authorId] parameter. *)
Definition without_authorId (q : BooksQuery) : BooksQuery :=
  {| rq_genre := rq_genre q; rq_authorId := None; rq_availability := rq_availability q;
     rq_sortBy := rq_sortBy q; rq_sortOrder := rq_sortOrder q;
     rq_page := rq_page q; rq_limit := rq_limit q |}.

(** A valid author payload with the given email. *)
Definition authorPayload (e : string) : AuthorData :=
  mkAuthorData (Some "Ann") (Some "bio") (Some "1970-05-05") (Some "NG") (Some e)
               None None None None.

(* ------------------------------------------------------------------ *)
(** ** Properties of the model *)

Example validate_sample :
  validateBookData (bookPayload "123456789-0" None) false = (true, []).
Proof. vm_compute. reflexivity. Qed.

Example validate_all_missing :
  validateBookData emptyBookData false
  = (false, ["Title is required"; "Author ID is required"; "ISBN is required";
             "Genre is required"; "Published date is required";
             "Description is required"; "Total pages is required"]).
Proof. vm_compute. reflexivity. Qed.

Example createBook_sample :
  createBook (bookPayload "1234567890" None) oidB1 0 db0 = inr (book1, db1).
Proof. vm_compute. reflexivity. Qed.

Lemma find_first_update_first {A} (p : A -> bool) (f : A -> A) (l : list A) (x : A) :
  find_first p l = Some x -> (forall y, p (f y) = p y) ->
  find_first p (update_first p f l) = Some (f x).
Proof.
  intros Hf Hp; induction l as [|y r IH]; simpl in *; [discriminate|].
  destruct (p y) eqn:Ey.
  - injection Hf as <-. simpl. rewrite Hp, Ey. reflexivity.
  - simpl. rewrite Ey. auto.
Qed.

Lemma Forall_update_first {A} (P : A -> Prop) (p : A -> bool) (f : A -> A) (l : list A) :
  Forall P l -> (forall x, P x -> p x = true -> P (f x)) ->
  Forall P (update_first p f l).
Proof.
  intros HF Hf; induction HF as [|y r Py Hr IH]; simpl; [constructor|].
  destruct (p y) eqn:Ey; constructor; auto.
Qed.

Lemma Forall_remove_first {A} (P : A -> Prop) (p : A -> bool) (l : list A) :
  Forall P l -> Forall P (remove_first p l).
Proof.
  intros HF; induction HF as [|y r Py Hr IH]; simpl; [constructor|].
  destruct (p y); auto.
Qed.

(** ** C1: ISBN uniqueness *)

(** C1 (code defect): [createBook] looks an ISBN up as [isbn.trim()] but
    stores it as [isbn.trim().replace(/[-\s]/g, '')].  Creating the same
    hyphenated ISBN ["123456789-0"] twice for an existing author succeeds
    both times, and the store then holds two books with ISBN ["1234567890"]. *)
Theorem createBook_hyphenated_isbn_twice :
  match createBook (bookPayload "123456789-0" None) oidB1 0 db0 with
  | inr (b1, db1) =>
      match createBook (bookPayload "123456789-0" None) oidB2 1 db1 with
      | inr (b2, db2) =>
          isbn b1 = "1234567890" /\ isbn b2 = "1234567890"
          /\ map isbn (books db2) = ["1234567890"; "1234567890"]
      | inl _ => False
      end
  | inl _ => False
  end.
Proof. vm_compute. repeat split. Qed.

(** ** C2: the lending invariant *)

(** C2 (as stated, refuted): from a store satisfying the invariant, a
    [createBook] call whose payload has [availability: false] stores a book
    that is unavailable with no borrower. *)
Lemma lending_inv_broken_by_createBook :
  lending_inv db0 /\
  match createBook (bookPayload "1234567890" (Some false)) oidB1 0 db0 with
  | inr (b, db1) => availability b = false /\ borrowedBy b = None /\ ~ lending_inv db1
  | inl _ => False
  end.
Proof.
  split; [constructor|].
  vm_compute. split; [reflexivity|]. split; [reflexivity|].
  intros H. inversion H as [|x l [Hx _] _]. specialize (Hx eq_refl). discriminate Hx.
Qed.

Lemma borrowFields_ok (info : string) (now : Z) (b : Book) :
  trim info <> EmptyString -> lending_ok (borrowFields info now b).
Proof.
  intros Hne; unfold lending_ok, borrowedBy_set, truthy; simpl.
  destruct (String.eqb (trim info) EmptyString) eqn:E.
  - apply String.eqb_eq in E. contradiction.
  - simpl. split; reflexivity.
Qed.

Lemma returnFields_ok (now : Z) (b : Book) : lending_ok (returnFields now b).
Proof. unfold lending_ok; simpl; split; discriminate. Qed.

Lemma setBookUpdateFields_ok (d : BookData) (now : Z) (b : Book) :
  d_availability d = None -> lending_ok b -> lending_ok (setBookUpdateFields d now b).
Proof.
  intros Hav Hb; unfold lending_ok, borrowedBy_set in *; simpl. rewrite Hav. exact Hb.
Qed.

(** C2 (amended): the invariant is preserved by [borrowBook] when the
    borrower information does not trim to the empty string, by [returnBook],
    by [deleteBookById], by [createBook] when the payload's availability is
    absent or truthy, and by [updateBookById] when the payload does not
    supply [availability]. *)
Theorem lending_inv_preserved (db : DB) :
  lending_inv db ->
  (forall id info now b db', trim info <> EmptyString ->
     borrowBook id info now db = inr (b, db') -> lending_inv db') /\
  (forall id now b db', returnBook id now db = inr (b, db') -> lending_inv db') /\
  (forall id r db', deleteBookById id db = inr (r, db') -> lending_inv db') /\
  (forall d fresh now b db', d_availability d <> Some false ->
     createBook d fresh now db = inr (b, db') -> lending_inv db') /\
  (forall id d now b db', d_availability d = None ->
     updateBookById id d now db = inr (b, db') -> lending_inv db').
Proof.
  intros Hinv; split; [|split; [|split; [|split]]].
  - intros id info now b db' Hne H. unfold borrowBook in H; unfold_M H.
    run_cases H. injection H as _ <-. unfold lending_inv; simpl.
    apply Forall_update_first; [exact Hinv|]. intros; apply borrowFields_ok; exact Hne.
  - intros id now b db' H. unfold returnBook in H; unfold_M H.
    run_cases H. injection H as _ <-. unfold lending_inv; simpl.
    apply Forall_update_first; [exact Hinv|]. intros; apply returnFields_ok.
  - intros id r db' H. unfold deleteBookById in H; unfold_M H.
    run_cases H. injection H as _ <-. unfold lending_inv; simpl.
    apply Forall_remove_first; exact Hinv.
  - intros d fresh now b db' Hav H. unfold createBook in H.
    destruct (validateBookData d false) as [ok errs]. unfold_M H.
    run_cases H; injection H as _ <-; unfold lending_inv; simpl;
      apply Forall_app; split; try exact Hinv; apply Forall_cons; try apply Forall_nil;
      unfold lending_ok, borrowedBy_set; simpl; split; try discriminate;
      intros Hf; congruence.
  - intros id d now b db' Hav H. unfold updateBookById in H.
    destruct (validateBookData d true) as [ok errs]. unfold_M H.
    run_cases H; injection H as _ <-; unfold lending_inv; simpl;
      apply Forall_update_first; try exact Hinv;
      intros; apply setBookUpdateFields_ok; auto.
Qed.

Lemma lending_inv_preserved_witness :
  lending_inv db1 /\ lending_inv db1_loaned /\
  match borrowBook oidB1 "Alice" 5 db1 with inr (_, db') => lending_inv db' | inl _ => False end /\
  match returnBook oidB1 6 db1_loaned with inr (_, db') => lending_inv db' | inl _ => False end /\
  match deleteBookById oidB1 db1 with inr (_, db') => lending_inv db' | inl _ => False end /\
  match createBook (bookPayload "2222222222" (Some true)) oidB2 7 db1 with
  | inr (_, db') => lending_inv db' | inl _ => False end /\
  match updateBookById oidB1 (isbnPayload "3333333333") 8 db1 with
  | inr (_, db') => lending_inv db' | inl _ => False end.
Proof.
  assert (H1 : lending_inv db1).
  { unfold lending_inv; simpl. constructor; [|constructor].
    unfold lending_ok, borrowedBy_set; simpl; split; discriminate. }
  assert (H2 : lending_inv db1_loaned).
  { unfold lending_inv; simpl. constructor; [|constructor].
    apply borrowFields_ok. vm_compute. discriminate. }
  destruct (lending_inv_preserved db1 H1) as [Pb [_ [Pd [Pc Pu]]]].
  destruct (lending_inv_preserved db1_loaned H2) as [_ [Pr _]].
  split; [exact H1|]. split; [exact H2|].
  split; [destruct (borrowBook oidB1 "Alice" 5 db1) as [e|[b db']] eqn:E;
          [vm_compute in E; discriminate
          | refine (Pb oidB1 "Alice" 5 b db' _ E); vm_compute; discriminate]|].
  split; [destruct (returnBook oidB1 6 db1_loaned) as [e|[b db']] eqn:E;
          [vm_compute in E; discriminate | exact (Pr oidB1 6 b db' E)]|].
  split; [destruct (deleteBookById oidB1 db1) as [e|[r db']] eqn:E;
          [vm_compute in E; discriminate | exact (Pd oidB1 r db' E)]|].
  split; [destruct (createBook (bookPayload "2222222222" (Some true)) oidB2 7 db1)
            as [e|[b db']] eqn:E;
          [vm_compute in E; discriminate
          | refine (Pc _ oidB2 7 b db' _ E); simpl; discriminate]|].
  destruct (updateBookById oidB1 (isbnPayload "3333333333") 8 db1) as [e|[b db']] eqn:E;
    [vm_compute in E; discriminate | exact (Pu oidB1 (isbnPayload "3333333333") 8 b db' eq_refl E)].
Defined.

(** ** C3: deleting a book on loan *)

(** C3 (as stated, refuted): a book stored with [availability: false] and no
    borrower (reachable through [createBook]) is deleted by [deleteBookById]. *)
Lemma deleteBookById_unavailable_deleted :
  match createBook (bookPayload "1234567890" (Some false)) oidB1 0 db0 with
  | inr (b, db1) =>
      availability b = false /\
      deleteBookById oidB1 db1 = inr (("Book deleted successfully", "B1"), db0)
  | inl _ => False
  end.
Proof. vm_compute. split; reflexivity. Qed.

(** C3 (amended): for a stored book, [deleteBookById] fails with the
    conflict 'Cannot delete book that is currently borrowed' exactly when its
    [borrowedBy] is set, and writes nothing; otherwise it removes the book and
    returns a confirmation naming its title. *)
Theorem deleteBookById_guard (db : DB) (id : string) (b : Book) :
  resolve_book db id = Some b ->
  (borrowedBy_set b = true ->
     deleteBookById id db = inl EBookBorrowed /\ kind_of EBookBorrowed = ConflictError) /\
  (borrowedBy_set b = false ->
     deleteBookById id db =
     inr (("Book deleted successfully", title b),
          set_books db (remove_first (book_has_id (new_ObjectId id)) (books db)))).
Proof.
  unfold resolve_book, borrowedBy_set; intros H.
  destruct (ObjectId_isValid id) eqn:V; [|discriminate].
  unfold deleteBookById, bind, guard, ret, throw, get, deleteOneBook.
  rewrite V; cbn -[find_first]. rewrite H.
  split; intros Hs; rewrite Hs; [split; reflexivity|].
  cbn -[find_first remove_first]. rewrite H. reflexivity.
Qed.

Lemma deleteBookById_guard_witness :
  resolve_book db1 oidB1 = Some book1 /\
  deleteBookById oidB1 db1 =
  inr (("Book deleted successfully", title book1),
       set_books db1 (remove_first (book_has_id (new_ObjectId oidB1)) (books db1))).
Proof.
  assert (H1 : resolve_book db1 oidB1 = Some book1) by (vm_compute; reflexivity).
  split; [exact H1|].
  apply (proj2 (deleteBookById_guard db1 oidB1 book1 H1)). vm_compute. reflexivity.
Defined.

(** ** C4: borrowing *)

Lemma find_borrowed (db : DB) (id info : string) (now : Z) (b : Book) :
  find_first (book_has_id (new_ObjectId id)) (books db) = Some b ->
  find_first (book_has_id (new_ObjectId id))
    (update_first (book_has_id (new_ObjectId id)) (borrowFields info now) (books db))
  = Some (borrowFields info now b).
Proof. intros H; apply find_first_update_first; [exact H | reflexivity]. Qed.

(** C4: on a book the id resolves to that is available, [borrowBook] stores
    and returns the book with [availability = false], [borrowedBy =
    trim(borrowerInfo)], [borrowedDate = now] and [returnDueDate = now + 14
    days], and a second [borrowBook] on the result fails with the conflict
    'Book is not available for borrowing'; on a book already on loan it fails
    with that conflict; on an id that resolves to no book it fails with a
    not-found error. *)
Theorem borrowBook_spec (db : DB) (id info : string) (now : Z) :
  match resolve_book db id with
  | None => exists e, borrowBook id info now db = inl e /\ kind_of e = NotFoundError
  | Some b =>
    if availability b then
      trim info <> EmptyString ->
      exists db',
        borrowBook id info now db = inr (borrowFields info now b, db')
        /\ books db' = update_first (book_has_id (new_ObjectId id))
                                    (borrowFields info now) (books db)
        /\ authors db' = authors db
        /\ availability (borrowFields info now b) = false
        /\ borrowedBy (borrowFields info now b) = Some (trim info)
        /\ borrowedDate (borrowFields info now b) = Some now
        /\ returnDueDate (borrowFields info now b) = Some (now + 14 * 86400000)
        /\ (forall info' now', borrowBook id info' now' db' = inl ENotAvailable)
        /\ kind_of ENotAvailable = ConflictError
    else borrowBook id info now db = inl ENotAvailable /\ kind_of ENotAvailable = ConflictError
  end.
Proof.
  unfold resolve_book, borrowBook, getBookById, bind, guard, ret, throw, get, updateOneBook.
  destruct (ObjectId_isValid id) eqn:V; cbn -[find_first update_first];
    [|exists EInvalidBookId; split; reflexivity].
  destruct (find_first (book_has_id (new_ObjectId id)) (books db)) as [b|] eqn:F;
    [|exists EBookNotFound; split; reflexivity].
  destruct (availability b) eqn:A; cbn -[find_first update_first];
    [|split; reflexivity].
  intros _. eexists. split.
  - rewrite F. cbn -[find_first update_first].
    rewrite (find_borrowed db id info now b F). reflexivity.
  - repeat split. intros info' now'. cbn -[find_first update_first].
    rewrite (find_borrowed db id info now b F). reflexivity.
Qed.

Lemma borrowBook_spec_witness :
  exists db',
    borrowBook oidB1 "  Alice " 5 db1 = inr (borrowFields "  Alice " 5 book1, db')
    /\ borrowedBy (borrowFields "  Alice " 5 book1) = Some "Alice"
    /\ borrowBook oidB1 "Bob" 6 db' = inl ENotAvailable.
Proof.
  pose proof (borrowBook_spec db1 oidB1 "  Alice " 5) as H.
  vm_compute in H. specialize (H ltac:(discriminate)).
  destruct H as [db' [H1 [_ [_ [_ [H2 [_ [_ [H3 _]]]]]]]]].
  exists db'. split; [exact H1|]. split; [vm_compute; reflexivity|]. apply H3.
Defined.

(** ** C5: deleting an author *)

(** C5: for a stored author, [deleteAuthorById] fails with the conflict
    'Cannot delete author who has n book(s) ...' (writing nothing) when
    [n >= 1] stored books reference it, and with [n = 0] removes the author
    and returns a confirmation naming it. *)
Theorem deleteAuthorById_guard (db : DB) (id : string) (a : Author) :
  resolve_author db id = Some a ->
  ((1 <= author_book_count db id)%nat ->
     deleteAuthorById id db = inl (EAuthorHasBooks (author_book_count db id))
     /\ kind_of (EAuthorHasBooks (author_book_count db id)) = ConflictError) /\
  (author_book_count db id = 0%nat ->
     deleteAuthorById id db =
     inr (("Author deleted successfully", name a),
          set_authors db (remove_first (author_has_id (new_ObjectId id)) (authors db)))).
Proof.
  unfold resolve_author, author_book_count; intros H.
  destruct (ObjectId_isValid id) eqn:V; [|discriminate].
  unfold deleteAuthorById, bind, guard, ret, throw, get, deleteOneAuthor.
  rewrite V; cbn -[find_first count_docs]. rewrite H.
  split; intros Hn.
  - destruct (count_docs _ _) as [|k]; [lia|]. split; reflexivity.
  - rewrite Hn. cbn -[find_first remove_first]. rewrite H. reflexivity.
Qed.

Lemma deleteAuthorById_guard_witness :
  resolve_author db1_loaned oidA = Some author0 /\
  deleteAuthorById oidA db1_loaned = inl (EAuthorHasBooks 1) /\
  deleteAuthorById oidA db0 = inr (("Author deleted successfully", "Test"), mkDB [] []).
Proof.
  assert (H1 : resolve_author db1_loaned oidA = Some author0) by (vm_compute; reflexivity).
  assert (H2 : resolve_author db0 oidA = Some author0) by (vm_compute; reflexivity).
  split; [exact H1|]. split.
  - apply (proj1 (deleteAuthorById_guard db1_loaned oidA author0 H1)). vm_compute. lia.
  - apply (proj2 (deleteAuthorById_guard db0 oidA author0 H2)). vm_compute. reflexivity.
Defined.

(** ** C6: creating a book for an unknown author *)

(** C6 (as stated, refuted): with an unknown [authorId] and a missing
    title, [createBook] fails with the validation error, not with
    'Author not found'. *)
Lemma createBook_unknown_author_validation_first :
  find_first (author_has_id (new_ObjectId oidC)) (authors db0) = None /\
  createBook (mkBookData None (Some oidC) (Some "1234567890") (Some "G")
                (Some "2020-01-01") (Some "d") (Some 100) None None) oidB1 0 db0
  = inl (EValidation ["Title is required"]).
Proof. split; vm_compute; reflexivity. Qed.

(** C6 (amended): when the payload's [authorId] resolves to no stored author,
    [createBook] fails (so nothing is inserted); it fails with 'Author not
    found' when the payload passes validation and no stored book has the
    looked-up ISBN [isbn.trim()]. *)
Theorem createBook_unknown_author (d : BookData) (fresh : string) (now : Z) (db : DB) :
  find_first (author_has_id (new_ObjectId (sval (d_authorId d)))) (authors db) = None ->
  (forall r, createBook d fresh now db <> inr r) /\
  (fst (validateBookData d false) = true ->
   find_first (fun b => String.eqb (isbn b) (trim (sval (d_isbn d)))) (books db) = None ->
   createBook d fresh now db = inl EAuthorNotFound /\ kind_of EAuthorNotFound = NotFoundError).
Proof.
  intros Ha. unfold createBook.
  destruct (validateBookData d false) as [ok errs]; simpl.
  unfold bind, guard, ret, throw, get, put.
  split.
  - intros r. destruct ok; cbn -[find_first]; [|discriminate].
    destruct (find_first _ (books db)); [discriminate|]. rewrite Ha. discriminate.
  - intros -> Hi. cbn -[find_first]. rewrite Hi, Ha. split; reflexivity.
Qed.

Lemma createBook_unknown_author_witness :
  createBook (bookPayload "1234567890" None) oidB1 0 (mkDB [] []) = inl EAuthorNotFound.
Proof.
  apply (proj2 (createBook_unknown_author (bookPayload "1234567890" None) oidB1 0
                  (mkDB [] []) (eq_refl _))); vm_compute; reflexivity.
Defined.

(** ** C7: empty borrower information *)

Lemma borrowBook_available (db : DB) (id info : string) (now : Z) (b : Book) :
  resolve_book db id = Some b -> availability b = true ->
  borrowBook id info now db =
  inr (borrowFields info now b,
       set_books db (update_first (book_has_id (new_ObjectId id))
                                  (borrowFields info now) (books db))).
Proof.
  unfold resolve_book; intros H A.
  destruct (ObjectId_isValid id) eqn:V; [|discriminate].
  unfold borrowBook, getBookById, bind, guard, ret, throw, get, updateOneBook.
  rewrite V; cbn -[find_first update_first]. rewrite H, A.
  cbn -[find_first update_first]. rewrite H. cbn -[find_first update_first].
  rewrite (find_borrowed db id info now b H). reflexivity.
Qed.

(** C7 (as stated, refuted): [borrowBook] on an available book with the
    borrower information ["   "] succeeds and puts the book on loan to [""]. *)
Lemma borrowBook_blank_borrower :
  match borrowBook oidB1 "   " 5 db1 with
  | inr (b, _) => availability b = false /\ borrowedBy b = Some ""
  | inl _ => False
  end.
Proof. vm_compute. split; reflexivity. Qed.

(** C7 (amended): [borrowBook] does not check the borrower information: on
    an available book and a [borrowerInfo] that trims to [""] it puts the
    book on loan with [borrowedBy = ""].  The non-empty requirement is the
    route's: [POST /books/:id/borrow] with such a [borrowerInfo] (or none)
    answers 400 before calling [borrowBook] and leaves the store unchanged. *)
Theorem borrow_blank_borrower (db : DB) (id info : string) (now : Z) (b : Book) :
  resolve_book db id = Some b -> availability b = true -> trim info = EmptyString ->
  borrowBook id info now db =
    inr (borrowFields info now b,
         set_books db (update_first (book_has_id (new_ObjectId id))
                                    (borrowFields info now) (books db)))
  /\ availability (borrowFields info now b) = false
  /\ borrowedBy (borrowFields info now b) = Some EmptyString
  /\ route_borrow id (Some info) now db = ((400, None), db)
  /\ route_borrow id None now db = ((400, None), db).
Proof.
  intros H A T. split; [apply borrowBook_available; assumption|].
  unfold route_borrow, blank; simpl. rewrite T. repeat split.
Qed.

Lemma borrow_blank_borrower_witness :
  route_borrow oidB1 (Some "   ") 5 db1 = ((400, None), db1).
Proof.
  assert (H : resolve_book db1 oidB1 = Some book1) by (vm_compute; reflexivity).
  apply (borrow_blank_borrower db1 oidB1 "   " 5 book1 H); vm_compute; reflexivity.
Defined.

(** ** C8: update with an empty payload *)

Lemma find_touched_book (db : DB) (id : string) (now : Z) (b : Book) :
  find_first (book_has_id (new_ObjectId id)) (books db) = Some b ->
  find_first (book_has_id (new_ObjectId id))
    (update_first (book_has_id (new_ObjectId id)) (touch_book now) (books db))
  = Some (touch_book now b).
Proof. intros H; apply find_first_update_first; [exact H | reflexivity]. Qed.

Lemma find_touched_author (db : DB) (id : string) (now : Z) (a : Author) :
  find_first (author_has_id (new_ObjectId id)) (authors db) = Some a ->
  find_first (author_has_id (new_ObjectId id))
    (update_first (author_has_id (new_ObjectId id)) (touch_author now) (authors db))
  = Some (touch_author now a).
Proof. intros H; apply find_first_update_first; [exact H | reflexivity]. Qed.

(** C8: on a stored book (author), [updateBookById] ([updateAuthorById])
    with the empty payload succeeds, and the record it stores and returns is
    the old one with only [updatedAt] replaced (see [touch_book],
    [touch_author]); the other collection is untouched. *)
Theorem updateById_empty_payload :
  (forall db id now b,
     resolve_book db id = Some b ->
     updateBookById id emptyBookData now db =
     inr (touch_book now b,
          set_books db (update_first (book_has_id (new_ObjectId id))
                                     (touch_book now) (books db)))) /\
  (forall Date_parse db id now a,
     resolve_author db id = Some a ->
     updateAuthorById Date_parse id emptyAuthorData now db =
     inr (touch_author now a,
          set_authors db (update_first (author_has_id (new_ObjectId id))
                                       (touch_author now) (authors db)))).
Proof.
  split.
  - intros db id now b. unfold resolve_book; intros H.
    destruct (ObjectId_isValid id) eqn:V; [|discriminate].
    unfold updateBookById, getBookById, bind, guard, ret, throw, get, updateOneBook.
    rewrite !V; cbn -[find_first update_first]. rewrite H.
    cbn -[find_first update_first].
    change (setBookUpdateFields emptyBookData now) with (touch_book now).
    rewrite (find_touched_book db id now b H). reflexivity.
  - intros P db id now a. unfold resolve_author; intros H.
    destruct (ObjectId_isValid id) eqn:V; [|discriminate].
    unfold updateAuthorById, getAuthorById, bind, guard, ret, throw, get, updateOneAuthor.
    rewrite !V; cbn -[find_first update_first]. rewrite H.
    cbn -[find_first update_first].
    change (setAuthorUpdateFields emptyAuthorData now) with (touch_author now).
    rewrite (find_touched_author db id now a H). reflexivity.
Qed.

Lemma updateById_empty_payload_witness :
  updateBookById oidB1 emptyBookData 7 db1 =
  inr (touch_book 7 book1,
       set_books db1 (update_first (book_has_id (new_ObjectId oidB1))
                                   (touch_book 7) (books db1))).
Proof.
  assert (H : resolve_book db1 oidB1 = Some book1) by (vm_compute; reflexivity).
  exact (proj1 updateById_empty_payload db1 oidB1 7 book1 H).
Defined.

(** ** C9: validation accumulates every violation *)

Lemma push_if_app (c : bool) (m : string) (e : list string) :
  push_if c m e = (e ++ (if c then [m] else []))%list.
Proof. destruct c; simpl; [reflexivity | symmetry; apply app_nil_r]. Qed.

Lemma map_filter_flat_map {A B} (f : A -> B) (p : A -> bool) (l : list A) :
  map f (filter p l) = flat_map (fun x => if p x then [f x] else []) l.
Proof. induction l as [|x r IH]; simpl; [reflexivity|]. destruct (p x); simpl; congruence. Qed.

Lemma length_map_filter_zero {A B} (f : A -> B) (p : A -> bool) (l : list A) :
  (length (map f (filter p l)) =? 0)%nat = negb (existsb p l).
Proof. induction l as [|x r IH]; simpl; [reflexivity|]. destruct (p x); simpl; auto. Qed.

Lemma book_errors (d : BookData) (u : bool) :
  snd (validateBookData d u) = map book_rule_msg (filter (book_rule_violated d u) book_rules).
Proof.
  rewrite map_filter_flat_map. unfold validateBookData. cbv zeta. rewrite !push_if_app.
  destruct d as [t a i g p de tp r av]; destruct u; simpl;
    destruct a, i, p, tp, r; simpl; rewrite ?app_nil_r; rewrite <- ?app_assoc; simpl;
    rewrite ?app_nil_r; reflexivity.
Qed.

Lemma author_errors (P : string -> option Z) (now : Z) (d : AuthorData) (u : bool) :
  snd (validateAuthorData P d u now)
  = map author_rule_msg (filter (author_rule_violated P now d u) author_rules).
Proof.
  rewrite map_filter_flat_map. unfold validateAuthorData. cbv zeta. rewrite !push_if_app.
  destruct u; simpl; rewrite ?app_nil_r; rewrite <- ?app_assoc; simpl;
    rewrite ?app_nil_r; reflexivity.
Qed.

Lemma validateBookData_eq (d : BookData) (u : bool) :
  validateBookData d u =
  (negb (existsb (book_rule_violated d u) book_rules),
   map book_rule_msg (filter (book_rule_violated d u) book_rules)).
Proof.
  pose proof (book_errors d u) as He.
  assert (Hf : fst (validateBookData d u) = (length (snd (validateBookData d u)) =? 0)%nat)
    by reflexivity.
  rewrite He, length_map_filter_zero in Hf.
  destruct (validateBookData d u); simpl in *; subst; reflexivity.
Qed.

Lemma validateAuthorData_eq (P : string -> option Z) (now : Z) (d : AuthorData) (u : bool) :
  validateAuthorData P d u now =
  (negb (existsb (author_rule_violated P now d u) author_rules),
   map author_rule_msg (filter (author_rule_violated P now d u) author_rules)).
Proof.
  pose proof (author_errors P now d u) as He.
  assert (Hf : fst (validateAuthorData P d u now)
               = (length (snd (validateAuthorData P d u now)) =? 0)%nat)
    by reflexivity.
  rewrite He, length_map_filter_zero in Hf.
  destruct (validateAuthorData P d u now); simpl in *; subst; reflexivity.
Qed.

(** C9 (as stated, refuted): [updateBookById] with a malformed id and a
    payload violating a rule fails with 'Invalid book ID format', not with the
    validation error. *)
Lemma updateBookById_id_checked_first :
  validateBookData (mkBookData None None None None None None (Some 0) None None) true
  = (false, ["Total pages must be between 1 and 10000"]) /\
  updateBookById "bad" (mkBookData None None None None None None (Some 0) None None) 0 db1
  = inl EInvalidBookId.
Proof. split; vm_compute; reflexivity. Qed.

(** C9 (amended): [validateBookData] and [validateAuthorData] return
    [isValid = false] exactly when some rule is violated, with the messages
    of all violated rules in rule order; [createBook] and [createAuthor] then
    fail with the validation error carrying that list, and so do
    [updateBookById] and [updateAuthorById] when the id is a well-formed
    ObjectId (a malformed id is rejected first); these failures write
    nothing. *)
Theorem validation_accumulates :
  (forall d u, validateBookData d u =
     (negb (existsb (book_rule_violated d u) book_rules),
      map book_rule_msg (filter (book_rule_violated d u) book_rules))) /\
  (forall P now d u, validateAuthorData P d u now =
     (negb (existsb (author_rule_violated P now d u) author_rules),
      map author_rule_msg (filter (author_rule_violated P now d u) author_rules))) /\
  (forall d fresh now db, existsb (book_rule_violated d false) book_rules = true ->
     createBook d fresh now db =
     inl (EValidation (map book_rule_msg (filter (book_rule_violated d false) book_rules)))) /\
  (forall id d now db, ObjectId_isValid id = true ->
     existsb (book_rule_violated d true) book_rules = true ->
     updateBookById id d now db =
     inl (EValidation (map book_rule_msg (filter (book_rule_violated d true) book_rules)))) /\
  (forall P d fresh now db, existsb (author_rule_violated P now d false) author_rules = true ->
     createAuthor P d fresh now db =
     inl (EValidation (map author_rule_msg
                         (filter (author_rule_violated P now d false) author_rules)))) /\
  (forall P id d now db, ObjectId_isValid id = true ->
     existsb (author_rule_violated P now d true) author_rules = true ->
     updateAuthorById P id d now db =
     inl (EValidation (map author_rule_msg
                         (filter (author_rule_violated P now d true) author_rules)))).
Proof.
  split; [exact validateBookData_eq|].
  split; [exact validateAuthorData_eq|].
  split; [|split; [|split]].
  - intros d fresh now db H. unfold createBook. rewrite validateBookData_eq, H. reflexivity.
  - intros id d now db V H. unfold updateBookById, bind, guard, ret, throw.
    rewrite V. cbn -[validateBookData]. rewrite validateBookData_eq, H. reflexivity.
  - intros P d fresh now db H. unfold createAuthor. rewrite validateAuthorData_eq, H.
    reflexivity.
  - intros P id d now db V H. unfold updateAuthorById, bind, guard, ret, throw.
    rewrite V. cbn -[validateAuthorData]. rewrite validateAuthorData_eq, H. reflexivity.
Qed.

Lemma validation_accumulates_witness :
  createBook emptyBookData oidB1 0 db0 =
  inl (EValidation ["Title is required"; "Author ID is required"; "ISBN is required";
                    "Genre is required"; "Published date is required";
                    "Description is required"; "Total pages is required"]).
Proof.
  apply (proj1 (proj2 (proj2 validation_accumulates)) emptyBookData oidB1 0 db0).
  vm_compute. reflexivity.
Defined.

(** ** C10: empty strings in a book update *)

Lemma update_first_ext {A} (p : A -> bool) (f g : A -> A) (l : list A) :
  (forall x, f x = g x) -> update_first p f l = update_first p g l.
Proof. intros Hfg; induction l as [|x r IH]; simpl; [reflexivity|]. rewrite Hfg, IH. reflexivity. Qed.

Lemma updateBookById_no_fields (db : DB) (id : string) (now : Z) (b : Book) (d : BookData) :
  resolve_book db id = Some b ->
  fst (validateBookData d true) = true ->
  truthy (d_isbn d) = false -> truthy (d_authorId d) = false ->
  (forall x, setBookUpdateFields d now x = touch_book now x) ->
  updateBookById id d now db =
  inr (touch_book now b,
       set_books db (update_first (book_has_id (new_ObjectId id)) (touch_book now) (books db))).
Proof.
  unfold resolve_book; intros H Hv Hi Ha Hf.
  destruct (ObjectId_isValid id) eqn:V; [|discriminate].
  unfold updateBookById, getBookById, bind, guard, ret, throw, get, updateOneBook.
  rewrite !V. destruct (validateBookData d true) as [ok e]; simpl in Hv; subst ok.
  cbn -[find_first update_first truthy]. rewrite Hi, Ha. cbn -[find_first update_first].
  rewrite H. cbn -[find_first update_first].
  rewrite (update_first_ext _ _ _ _ Hf), (find_touched_book db id now b H). reflexivity.
Qed.

(** C10: on a stored book, [updateBookById] with a payload whose title,
    isbn, genre, publishedDate and description are each absent or [""] (and
    no other field) passes validation, succeeds, and stores and returns the
    old record with only [updatedAt] replaced. *)
Theorem updateBookById_empty_strings (db : DB) (id : string) (now : Z) (b : Book)
    (t i g p de : option string) :
  resolve_book db id = Some b ->
  empty_or_absent t -> empty_or_absent i -> empty_or_absent g ->
  empty_or_absent p -> empty_or_absent de ->
  validateBookData (mkBookData t None i g p de None None None) true = (true, []) /\
  updateBookById id (mkBookData t None i g p de None None None) now db =
  inr (touch_book now b,
       set_books db (update_first (book_has_id (new_ObjectId id)) (touch_book now) (books db))).
Proof.
  intros H Ht Hi Hg Hp Hde.
  assert (Hv : validateBookData (mkBookData t None i g p de None None None) true = (true, [])).
  { destruct Hi as [-> | ->], Hp as [-> | ->]; reflexivity. }
  split; [exact Hv|].
  apply updateBookById_no_fields; [exact H | rewrite Hv; reflexivity | | reflexivity |].
  - destruct Hi as [-> | ->]; reflexivity.
  - intros x. unfold setBookUpdateFields; simpl.
    destruct Ht as [-> | ->], Hi as [-> | ->], Hg as [-> | ->], Hp as [-> | ->],
      Hde as [-> | ->]; reflexivity.
Qed.

Lemma updateBookById_empty_strings_witness :
  updateBookById oidB1 (mkBookData (Some "") None (Some "") (Some "") (Some "") (Some "")
                          None None None) 9 db1 =
  inr (touch_book 9 book1,
       set_books db1 (update_first (book_has_id (new_ObjectId oidB1))
                                   (touch_book 9) (books db1))).
Proof.
  assert (H : resolve_book db1 oidB1 = Some book1) by (vm_compute; reflexivity).
  apply (updateBookById_empty_strings db1 oidB1 9 book1
           (Some "") (Some "") (Some "") (Some "") (Some "") H);
    unfold empty_or_absent; right; reflexivity.
Defined.

(* ================================================================== *)
(** * Further properties of the code *)

(** ** Lemmas on the collections *)

Lemma find_first_some {A} (p : A -> bool) (l : list A) (x : A) :
  find_first p l = Some x -> p x = true /\ In x l.
Proof.
  induction l as [|y r IH]; simpl; [discriminate|].
  destruct (p y) eqn:Ey; [intros [= <-]; auto | intros H; destruct (IH H); auto].
Qed.

Lemma find_first_app_keep {A} (p : A -> bool) (l l' : list A) (x : A) :
  find_first p l = Some x -> find_first p (l ++ l') = Some x.
Proof.
  induction l as [|y r IH]; simpl; [discriminate|]. destruct (p y); auto.
Qed.

Lemma find_first_app_none {A} (p : A -> bool) (l l' : list A) :
  find_first p l = None -> find_first p (l ++ l') = find_first p l'.
Proof.
  induction l as [|y r IH]; simpl; [reflexivity|]. destruct (p y); [discriminate | auto].
Qed.

Lemma find_first_snoc {A} (p : A -> bool) (l : list A) (x : A) :
  p x = true -> exists y, find_first p (l ++ [x]) = Some y.
Proof.
  intros Hx. destruct (find_first p l) as [y|] eqn:F.
  - exists y. apply find_first_app_keep; exact F.
  - exists x. rewrite (find_first_app_none _ _ _ F). simpl. rewrite Hx. reflexivity.
Qed.

Lemma find_first_update_any {A} (p q : A -> bool) (f : A -> A) (l : list A) (x : A) :
  (forall y, p (f y) = p y) -> find_first p l = Some x ->
  exists y, find_first p (update_first q f l) = Some y.
Proof.
  intros Hp; induction l as [|y r IH]; simpl; [discriminate|].
  destruct (q y) eqn:Qy; simpl.
  - rewrite Hp. destruct (p y); [eauto | intros H; exists x; exact H].
  - destruct (p y); [eauto | exact IH].
Qed.

Lemma find_first_remove_other {A} (p q : A -> bool) (l : list A) :
  (forall y, q y = true -> p y = false) ->
  find_first p (remove_first q l) = find_first p l.
Proof.
  intros Hqp; induction l as [|y r IH]; simpl; [reflexivity|].
  destruct (q y) eqn:Qy; simpl.
  - rewrite (Hqp y Qy). reflexivity.
  - rewrite IH. reflexivity.
Qed.

Lemma count_docs_zero {A} (p : A -> bool) (l : list A) (x : A) :
  count_docs p l = 0%nat -> In x l -> p x = false.
Proof.
  induction l as [|y r IH]; simpl; [contradiction|].
  destruct (p y) eqn:Ey; [discriminate|]. intros H [<- | Hin]; auto.
Qed.

(** ** Returning a book *)

Lemma find_returned (db : DB) (id : string) (now : Z) (b : Book) :
  find_first (book_has_id (new_ObjectId id)) (books db) = Some b ->
  find_first (book_has_id (new_ObjectId id))
    (update_first (book_has_id (new_ObjectId id)) (returnFields now) (books db))
  = Some (returnFields now b).
Proof. intros H; apply find_first_update_first; [exact H | reflexivity]. Qed.

(** [returnBook] on a book the id resolves to that is on loan
    ([availability = false]) stores and returns it with [availability =
    true], the three borrow fields cleared and [updatedAt = now], touching
    nothing else, after which a second return fails with the conflict 'Book
    is not currently borrowed'; on an available book it fails with that
    conflict; on an id that resolves to no book it fails with a not-found
    error. *)
Theorem returnBook_spec (db : DB) (id : string) (now : Z) :
  match resolve_book db id with
  | None => exists e, returnBook id now db = inl e /\ kind_of e = NotFoundError
  | Some b =>
    if availability b then
      returnBook id now db = inl ENotBorrowed /\ kind_of ENotBorrowed = ConflictError
    else
      exists db',
        returnBook id now db = inr (returnFields now b, db')
        /\ books db' = update_first (book_has_id (new_ObjectId id)) (returnFields now) (books db)
        /\ authors db' = authors db
        /\ availability (returnFields now b) = true
        /\ borrowedBy (returnFields now b) = None
        /\ borrowedDate (returnFields now b) = None
        /\ returnDueDate (returnFields now b) = None
        /\ b_updatedAt (returnFields now b) = now
        /\ (forall now', returnBook id now' db' = inl ENotBorrowed)
  end.
Proof.
  unfold resolve_book, returnBook, getBookById, bind, guard, ret, throw, get, updateOneBook.
  destruct (ObjectId_isValid id) eqn:V; cbn -[find_first update_first];
    [|exists EInvalidBookId; split; reflexivity].
  destruct (find_first (book_has_id (new_ObjectId id)) (books db)) as [b|] eqn:F;
    [|exists EBookNotFound; split; reflexivity].
  destruct (availability b) eqn:A; cbn -[find_first update_first];
    [split; reflexivity|].
  eexists. split.
  - rewrite F. cbn -[find_first update_first].
    rewrite (find_returned db id now b F). reflexivity.
  - repeat split. intros now'. cbn -[find_first update_first].
    rewrite (find_returned db id now b F). reflexivity.
Qed.

(** ** Creating, then reading back *)

(** A book [createBook] stores under a fresh id (a valid, lower-case
    ObjectId no stored book has) is what [getBookById] then returns; it is
    appended to the collection, with [createdAt = updatedAt = now], no
    borrower, and [availability] true unless the payload sets it. *)
Theorem createBook_then_get (d : BookData) (fresh : string) (now : Z) (db db' : DB) (b : Book) :
  createBook d fresh now db = inr (b, db') ->
  ObjectId_isValid fresh = true -> new_ObjectId fresh = fresh -> resolve_book db fresh = None ->
  getBookById fresh db' = inr (b, db')
  /\ books db' = (books db ++ [b])%list /\ authors db' = authors db
  /\ b_id b = fresh /\ b_createdAt b = now /\ b_updatedAt b = now /\ borrowedBy b = None
  /\ availability b = match d_availability d with Some v => v | None => true end.
Proof.
  unfold resolve_book; intros H V N R. rewrite V, N in R.
  unfold createBook in H. unfold_M H. run_cases H.
  all: injection H as <- <-; split; [|rewrite ?E0, ?E1, ?E2; repeat split].
  all: unfold getBookById, bind, guard, ret, throw, get; rewrite V; cbn -[find_first];
    rewrite N, (find_first_app_none _ _ _ R); simpl;
    unfold book_has_id; simpl; rewrite String.eqb_refl; reflexivity.
Qed.

Lemma createBook_then_get_witness :
  getBookById oidB1 db1 = inr (book1, db1) /\ books db1 = (books db0 ++ [book1])%list.
Proof.
  assert (H : createBook (bookPayload "1234567890" None) oidB1 0 db0 = inr (book1, db1))
    by (vm_compute; reflexivity).
  destruct (createBook_then_get _ _ _ _ _ _ H eq_refl eq_refl eq_refl) as [H1 [H2 _]].
  split; [exact H1 | exact H2].
Defined.

(** An author [createAuthor] stores under a fresh id is what
    [getAuthorById] then returns; it is appended to the collection, active,
    with [createdAt = updatedAt = now] and the email (when given) trimmed and
    lower-cased. *)
Theorem createAuthor_then_get (Date_parse : string -> option Z) (d : AuthorData)
    (fresh : string) (now : Z) (db db' : DB) (a : Author) :
  createAuthor Date_parse d fresh now db = inr (a, db') ->
  ObjectId_isValid fresh = true -> new_ObjectId fresh = fresh -> resolve_author db fresh = None ->
  getAuthorById fresh db' = inr (a, db')
  /\ authors db' = (authors db ++ [a])%list /\ books db' = books db
  /\ a_id a = fresh /\ a_createdAt a = now /\ a_updatedAt a = now /\ isActive a = true
  /\ email a = (if truthy (ad_email d) then Some (to_lower (trim (sval (ad_email d)))) else None).
Proof.
  unfold resolve_author; intros H V N R. rewrite V, N in R.
  unfold createAuthor in H. unfold_M H. run_cases H.
  all: injection H as <- <-; split; [|rewrite ?E0, ?E1, ?E2, ?E3; repeat split].
  all: unfold getAuthorById, bind, guard, ret, throw, get; rewrite V; cbn -[find_first];
    rewrite N, (find_first_app_none _ _ _ R); simpl;
    unfold author_has_id; simpl; rewrite String.eqb_refl; reflexivity.
Qed.

Lemma createAuthor_then_get_witness :
  exists a db', createAuthor (fun _ => None) (authorPayload "Ann@Mail.io") oidC 0 db0 = inr (a, db')
  /\ getAuthorById oidC db' = inr (a, db') /\ email a = Some "ann@mail.io".
Proof.
  destruct (createAuthor (fun _ => None) (authorPayload "Ann@Mail.io") oidC 0 db0)
    as [e|[a db']] eqn:H; [discriminate H|].
  destruct (createAuthor_then_get _ _ _ _ _ _ _ H eq_refl eq_refl eq_refl)
    as [H1 [_ [_ [_ [_ [_ [_ H2]]]]]]].
  exists a, db'. split; [reflexivity|]. split; [exact H1|]. rewrite H2. reflexivity.
Defined.

(** Author emails are unique up to case and surrounding white space:
    [createAuthor] looks the email up in the same normalised form
    ([trim().toLowerCase()]) it stores, so once an author with an email is
    created, creating another valid author whose email normalises to the same
    string fails with 'Author with this email already exists'. *)
Theorem createAuthor_email_unique (Date_parse : string -> option Z) (d1 d2 : AuthorData)
    (fresh1 fresh2 : string) (now1 now2 : Z) (db db1' : DB) (a1 : Author) :
  createAuthor Date_parse d1 fresh1 now1 db = inr (a1, db1') ->
  truthy (ad_email d1) = true ->
  fst (validateAuthorData Date_parse d2 false now2) = true ->
  truthy (ad_email d2) = true ->
  to_lower (trim (sval (ad_email d2))) = to_lower (trim (sval (ad_email d1))) ->
  createAuthor Date_parse d2 fresh2 now2 db1' = inl EEmailExists.
Proof.
  intros H T1 Hv T2 Heq.
  unfold createAuthor in H. unfold_M H. run_cases H.
  all: injection H as <- <-.
  all: unfold createAuthor; destruct (validateAuthorData Date_parse d2 false now2) as [ok errs];
    simpl in Hv; subst ok; unfold bind, guard, ret, throw, get; cbn -[find_first truthy];
    rewrite T2; simpl;
    match goal with
    | |- context [find_first ?p (?l ++ [?x])%list] =>
        assert (Hx : p x = true)
          by (unfold author_has_email; simpl; rewrite ?Heq; try apply String.eqb_refl; congruence);
        destruct (find_first_snoc p l x Hx) as [y Hy]; rewrite Hy; reflexivity
    end.
Qed.

Lemma createAuthor_email_unique_witness :
  exists a db', createAuthor (fun _ => None) (authorPayload "Ann@Mail.io") oidC 0 db0 = inr (a, db')
  /\ createAuthor (fun _ => None) (authorPayload "ANN@mail.IO") oidB1 1 db' = inl EEmailExists.
Proof.
  destruct (createAuthor (fun _ => None) (authorPayload "Ann@Mail.io") oidC 0 db0)
    as [e|[a db']] eqn:H; [discriminate H|].
  exists a, db'. split; [reflexivity|].
  apply (createAuthor_email_unique _ _ _ _ _ _ _ _ _ _ H); vm_compute; reflexivity.
Defined.

(** ISBNs are unique when the second payload's trimmed ISBN is already in
    the stored, hyphen-free form: after [createBook] stores a book, a valid
    payload whose [isbn.trim()] is that stored ISBN fails with 'Book with this
    ISBN already exists'. *)
Theorem createBook_isbn_conflict (d1 d2 : BookData) (fresh1 fresh2 : string) (now1 now2 : Z)
    (db db1' : DB) (b1 : Book) :
  createBook d1 fresh1 now1 db = inr (b1, db1') ->
  fst (validateBookData d2 false) = true ->
  trim (sval (d_isbn d2)) = strip_isbn (trim (sval (d_isbn d1))) ->
  createBook d2 fresh2 now2 db1' = inl EIsbnExists.
Proof.
  intros H Hv Heq.
  unfold createBook in H. unfold_M H. run_cases H.
  all: injection H as <- <-.
  all: unfold createBook; destruct (validateBookData d2 false) as [ok errs];
    simpl in Hv; subst ok; unfold bind, guard, ret, throw, get; cbn -[find_first];
    match goal with
    | |- context [find_first ?p (?l ++ [?x])%list] =>
        assert (Hx : p x = true) by (simpl; rewrite Heq; apply String.eqb_refl);
        destruct (find_first_snoc p l x Hx) as [y Hy]; rewrite Hy; reflexivity
    end.
Qed.

Lemma createBook_isbn_conflict_witness :
  exists b db', createBook (bookPayload "123-456-7890" None) oidB1 0 db0 = inr (b, db')
  /\ createBook (bookPayload " 1234567890" None) oidB2 1 db' = inl EIsbnExists.
Proof.
  destruct (createBook (bookPayload "123-456-7890" None) oidB1 0 db0)
    as [e|[b db']] eqn:H; [discriminate H|].
  exists b, db'. split; [reflexivity|].
  apply (createBook_isbn_conflict _ _ _ _ _ _ _ _ _ H); vm_compute; reflexivity.
Defined.

(** ** Updating a book's ISBN, an author's email *)

(** [updateBookById] with an ISBN-only payload on a stored book: the
    uniqueness query leaves the book itself out, so the update fails with
    'Another book with this ISBN already exists' exactly when a book with a
    different [_id] holds the normalised ISBN, and otherwise stores the
    normalised ISBN (even when the book already holds it). *)
Theorem updateBookById_isbn (db : DB) (id i : string) (now : Z) (b : Book) :
  resolve_book db id = Some b -> truthy (Some i) = true -> isbn_regex (strip_isbn i) = true ->
  match find_first (fun b' => String.eqb (isbn b') (strip_isbn (trim i))
                              && negb (String.eqb (b_id b') (new_ObjectId id))) (books db) with
  | Some _ => updateBookById id (isbnPayload i) now db = inl EIsbnExistsOther
  | None =>
      updateBookById id (isbnPayload i) now db =
      inr (setBookUpdateFields (isbnPayload i) now b,
           set_books db (update_first (book_has_id (new_ObjectId id))
                                      (setBookUpdateFields (isbnPayload i) now) (books db)))
      /\ isbn (setBookUpdateFields (isbnPayload i) now b) = strip_isbn (trim i)
  end.
Proof.
  unfold resolve_book; intros H T R.
  destruct (ObjectId_isValid id) eqn:V; [|discriminate].
  assert (Hv : validateBookData (isbnPayload i) true = (true, [])).
  { unfold validateBookData, push_if; cbn -[truthy isbn_regex strip_isbn]. rewrite T, R.
    reflexivity. }
  unfold updateBookById, getBookById, bind, guard, ret, throw, get, updateOneBook.
  rewrite !V, Hv. cbn -[find_first update_first truthy strip_isbn trim].
  rewrite T.
  destruct (find_first (fun b' => String.eqb (isbn b') (strip_isbn (trim i))
                                 && negb (String.eqb (b_id b') (new_ObjectId id))) (books db))
    eqn:F; [reflexivity|].
  cbn -[find_first update_first strip_isbn trim]. rewrite H.
  cbn -[find_first update_first truthy strip_isbn trim].
  rewrite (find_first_update_first _ (setBookUpdateFields (isbnPayload i) now) _ _ H
             (fun _ => eq_refl)).
  split; [reflexivity|]. unfold setBookUpdateFields; simpl; rewrite ?T; reflexivity.
Qed.

Lemma updateBookById_isbn_witness :
  updateBookById oidB1 (isbnPayload "123-456-7890") 9 db1 =
  inr (setBookUpdateFields (isbnPayload "123-456-7890") 9 book1,
       set_books db1 (update_first (book_has_id (new_ObjectId oidB1))
                        (setBookUpdateFields (isbnPayload "123-456-7890") 9) (books db1))).
Proof.
  assert (H : resolve_book db1 oidB1 = Some book1) by (vm_compute; reflexivity).
  exact (proj1 (updateBookById_isbn db1 oidB1 "123-456-7890" 9 book1 H eq_refl eq_refl)).
Defined.

(** [updateAuthorById] with an email-only payload on a stored author: it
    fails with 'Another author with this email already exists' exactly when
    an author with a different [_id] holds the normalised email, and
    otherwise stores the email trimmed and lower-cased. *)
Theorem updateAuthorById_email (Date_parse : string -> option Z) (db : DB) (id e : string)
    (now : Z) (a : Author) :
  resolve_author db id = Some a -> truthy (Some e) = true -> email_regex e = true ->
  match find_first (fun a' => author_has_email (to_lower (trim e)) a'
                              && negb (String.eqb (a_id a') (new_ObjectId id))) (authors db) with
  | Some _ => updateAuthorById Date_parse id (emailPayload e) now db = inl EEmailExistsOther
  | None =>
      updateAuthorById Date_parse id (emailPayload e) now db =
      inr (setAuthorUpdateFields (emailPayload e) now a,
           set_authors db (update_first (author_has_id (new_ObjectId id))
                                        (setAuthorUpdateFields (emailPayload e) now) (authors db)))
      /\ email (setAuthorUpdateFields (emailPayload e) now a) = Some (to_lower (trim e))
  end.
Proof.
  unfold resolve_author; intros H T R.
  destruct (ObjectId_isValid id) eqn:V; [|discriminate].
  assert (Hv : validateAuthorData Date_parse (emailPayload e) true now = (true, [])).
  { unfold validateAuthorData, push_if; cbn -[truthy email_regex]. rewrite T, R.
    reflexivity. }
  unfold updateAuthorById, getAuthorById, bind, guard, ret, throw, get, updateOneAuthor.
  rewrite !V, Hv. cbn -[find_first update_first truthy trim to_lower].
  rewrite T.
  destruct (find_first (fun a' => author_has_email (to_lower (trim e)) a'
                                 && negb (String.eqb (a_id a') (new_ObjectId id))) (authors db))
    eqn:F; [reflexivity|].
  cbn -[find_first update_first trim to_lower]. rewrite H.
  cbn -[find_first update_first truthy trim to_lower].
  rewrite (find_first_update_first _ (setAuthorUpdateFields (emailPayload e) now) _ _ H
             (fun _ => eq_refl)).
  split; [reflexivity|]. unfold setAuthorUpdateFields; simpl; rewrite ?T; reflexivity.
Qed.

Lemma updateAuthorById_email_witness :
  exists a db', createAuthor (fun _ => None) (authorPayload "ann@mail.io") oidC 0 db0 = inr (a, db')
  /\ updateAuthorById (fun _ => None) oidA (emailPayload "Ann@Mail.io") 1 db' = inl EEmailExistsOther.
Proof.
  destruct (createAuthor (fun _ => None) (authorPayload "ann@mail.io") oidC 0 db0)
    as [e|[a db']] eqn:H; [discriminate H|].
  exists a, db'. split; [reflexivity|].
  vm_compute in H. injection H as <- <-.
  match goal with
  | |- updateAuthorById _ _ _ _ ?d = _ =>
      assert (Ha : resolve_author d oidA = Some author0) by (vm_compute; reflexivity);
      exact (updateAuthorById_email (fun _ => None) d oidA "Ann@Mail.io" 1 author0 Ha
               eq_refl eq_refl)
  end.
Defined.

(** ** Referential integrity: every book's author is stored *)

Lemma validated_authorId (d : BookData) (u : bool) :
  fst (validateBookData d u) = true -> truthy (d_authorId d) = true ->
  ObjectId_isValid (sval (d_authorId d)) = true.
Proof.
  rewrite validateBookData_eq. cbn [fst]. intros H T.
  destruct (ObjectId_isValid (sval (d_authorId d))) eqn:V; [reflexivity|].
  assert (Hex : existsb (book_rule_violated d u) book_rules = true).
  { apply existsb_exists. exists BR_author_fmt. split; [simpl; tauto|].
    simpl. rewrite T, V. reflexivity. }
  rewrite Hex in H. discriminate H.
Qed.

Lemma refs_ok_books_update (db : DB) (p : Book -> bool) (f : Book -> Book) :
  refs_ok db -> (forall x, authorId (f x) = authorId x) ->
  refs_ok (set_books db (update_first p f (books db))).
Proof.
  unfold refs_ok; simpl; intros R Hf. apply Forall_update_first; [exact R|].
  intros x Hx _. rewrite Hf. exact Hx.
Qed.

Lemma refs_ok_authors_update (db : DB) (p : Author -> bool) (f : Author -> Author) :
  refs_ok db -> (forall y, a_id (f y) = a_id y) ->
  refs_ok (set_authors db (update_first p f (authors db))).
Proof.
  unfold refs_ok; simpl; intros R Hf. eapply Forall_impl; [|exact R].
  intros bk [a Ha]. eapply find_first_update_any; [|exact Ha].
  intros y. unfold author_has_id. rewrite Hf. reflexivity.
Qed.

Lemma refs_createBook (db : DB) (d : BookData) (fresh : string) (now : Z) (x : Book) (db' : DB) :
  refs_ok db -> createBook d fresh now db = inr (x, db') -> refs_ok db'.
Proof.
  intros R H. unfold createBook in H. unfold_M H. run_cases H.
  all: injection H as <- <-; unfold refs_ok in *; simpl; apply Forall_app; split;
    [exact R | constructor; [simpl; eexists; eassumption | constructor]].
Qed.

Lemma refs_updateBook (db : DB) (id : string) (d : BookData) (now : Z) (x : Book) (db' : DB) :
  refs_ok db -> updateBookById id d now db = inr (x, db') -> refs_ok db'.
Proof.
  intros R H. unfold updateBookById in H. unfold_M H. run_cases H.
  all: injection H as <- <-.
  all: match goal with
       | E : validateBookData ?dd true = (?ok, _), E' : negb ?ok = false |- _ =>
           assert (Hv : fst (validateBookData dd true) = true)
             by (rewrite E; destruct ok; [reflexivity | discriminate E'])
       end.
  all: unfold refs_ok in *; simpl; apply Forall_update_first; [exact R|];
    intros y Hy _; unfold setBookUpdateFields; simpl;
    destruct (truthy (d_authorId d)) eqn:T; [|exact Hy].
  all: pose proof (validated_authorId d true Hv T) as V';
    match goal with
    | E : andb _ (ObjectId_isValid _) = _ |- _ =>
        rewrite V' in E; simpl in E; try discriminate E
    end;
    eexists; eassumption.
Qed.

Lemma refs_deleteBook (db : DB) (id : string) (r : string * string) (db' : DB) :
  refs_ok db -> deleteBookById id db = inr (r, db') -> refs_ok db'.
Proof.
  intros R H. unfold deleteBookById in H. unfold_M H. run_cases H.
  injection H as <- <-. apply Forall_remove_first. exact R.
Qed.

Lemma refs_borrowBook (db : DB) (id info : string) (now : Z) (x : Book) (db' : DB) :
  refs_ok db -> borrowBook id info now db = inr (x, db') -> refs_ok db'.
Proof.
  intros R H. unfold borrowBook in H. unfold_M H. run_cases H.
  injection H as <- <-. apply refs_ok_books_update; [exact R | reflexivity].
Qed.

Lemma refs_returnBook (db : DB) (id : string) (now : Z) (x : Book) (db' : DB) :
  refs_ok db -> returnBook id now db = inr (x, db') -> refs_ok db'.
Proof.
  intros R H. unfold returnBook in H. unfold_M H. run_cases H.
  injection H as <- <-. apply refs_ok_books_update; [exact R | reflexivity].
Qed.

Lemma refs_createAuthor (P : string -> option Z) (db : DB) (d : AuthorData) (fresh : string)
    (now : Z) (x : Author) (db' : DB) :
  refs_ok db -> createAuthor P d fresh now db = inr (x, db') -> refs_ok db'.
Proof.
  intros R H. unfold createAuthor in H. unfold_M H. run_cases H.
  all: injection H as <- <-; unfold refs_ok in *; simpl; eapply Forall_impl; [|exact R];
    intros bk [a0 Ha]; exists a0; apply find_first_app_keep; exact Ha.
Qed.

Lemma refs_updateAuthor (P : string -> option Z) (db : DB) (id : string) (d : AuthorData)
    (now : Z) (x : Author) (db' : DB) :
  refs_ok db -> updateAuthorById P id d now db = inr (x, db') -> refs_ok db'.
Proof.
  intros R H. unfold updateAuthorById in H. unfold_M H. run_cases H.
  all: injection H as <- <-; apply refs_ok_authors_update; [exact R | reflexivity].
Qed.

Lemma refs_deleteAuthor (db : DB) (id : string) (r : string * string) (db' : DB) :
  refs_ok db -> deleteAuthorById id db = inr (r, db') -> refs_ok db'.
Proof.
  intros R H. unfold deleteAuthorById in H. unfold_M H. run_cases H.
  injection H as <- <-. unfold refs_ok in *; simpl.
  apply Forall_forall. intros bk Hin. destruct (proj1 (Forall_forall _ _) R bk Hin) as [au Ha].
  exists au. rewrite find_first_remove_other; [exact Ha|].
  intros y Hy. unfold author_has_id in *. apply String.eqb_eq in Hy. rewrite Hy.
  rewrite String.eqb_sym.
  apply (count_docs_zero (fun b => String.eqb (authorId b) (new_ObjectId id)) (books db) bk);
    [|exact Hin].
  match goal with
  | E : (0 <? _)%nat = false |- _ => apply Nat.ltb_ge in E; lia
  end.
Qed.

Lemma refs_addAward (db : DB) (id : string) (award : option string) (now : Z) (x : Author)
    (db' : DB) :
  refs_ok db -> addAwardToAuthor id award now db = inr (x, db') -> refs_ok db'.
Proof.
  intros R H. unfold addAwardToAuthor in H. unfold_M H. run_cases H.
  injection H as <- <-. apply refs_ok_authors_update; [exact R | reflexivity].
Qed.

(** Referential integrity is an invariant of the models: if every stored
    book's [authorId] names a stored author, it still does after any
    successful [createBook], [updateBookById] (a new [authorId] is checked to
    exist), [deleteBookById], [borrowBook], [returnBook], [createAuthor],
    [updateAuthorById], [addAwardToAuthor] and [deleteAuthorById] (which only
    removes an author no book references); a failing call writes nothing. *)
Theorem refs_ok_preserved (Date_parse : string -> option Z) (db : DB) :
  refs_ok db ->
  (forall d fresh now b db', createBook d fresh now db = inr (b, db') -> refs_ok db') /\
  (forall id d now b db', updateBookById id d now db = inr (b, db') -> refs_ok db') /\
  (forall id r db', deleteBookById id db = inr (r, db') -> refs_ok db') /\
  (forall id info now b db', borrowBook id info now db = inr (b, db') -> refs_ok db') /\
  (forall id now b db', returnBook id now db = inr (b, db') -> refs_ok db') /\
  (forall d fresh now a db', createAuthor Date_parse d fresh now db = inr (a, db') -> refs_ok db') /\
  (forall id d now a db', updateAuthorById Date_parse id d now db = inr (a, db') -> refs_ok db') /\
  (forall id award now a db', addAwardToAuthor id award now db = inr (a, db') -> refs_ok db') /\
  (forall id r db', deleteAuthorById id db = inr (r, db') -> refs_ok db').
Proof.
  intros R. split; [|split; [|split; [|split; [|split; [|split; [|split; [|split]]]]]]]; intros.
  - eapply refs_createBook; eassumption.
  - eapply refs_updateBook; eassumption.
  - eapply refs_deleteBook; eassumption.
  - eapply refs_borrowBook; eassumption.
  - eapply refs_returnBook; eassumption.
  - eapply refs_createAuthor; eassumption.
  - eapply refs_updateAuthor; eassumption.
  - eapply refs_addAward; eassumption.
  - eapply refs_deleteAuthor; eassumption.
Qed.

Lemma refs_ok_preserved_witness :
  refs_ok db1 /\
  (forall d fresh now b db', createBook d fresh now db1 = inr (b, db') -> refs_ok db').
Proof.
  assert (R : refs_ok db1)
    by (unfold refs_ok; simpl; constructor; [exists author0; reflexivity | constructor]).
  split; [exact R|]. exact (proj1 (refs_ok_preserved (fun _ => None) db1 R)).
Defined.

(** ** Adding an award *)

Lemma add_to_set_in (x : string) (l : list string) : In x (add_to_set x l).
Proof.
  unfold add_to_set. destruct (existsb (String.eqb x) l) eqn:E.
  - apply existsb_exists in E as [y [Hy Ey]]. apply String.eqb_eq in Ey. subst. exact Hy.
  - apply in_or_app. right. left. reflexivity.
Qed.

Lemma add_to_set_keeps (x y : string) (l : list string) : In y l -> In y (add_to_set x l).
Proof.
  unfold add_to_set. destruct (existsb (String.eqb x) l); [auto|].
  intros H. apply in_or_app. left. exact H.
Qed.

Lemma add_to_set_idem (x : string) (l : list string) :
  add_to_set x (add_to_set x l) = add_to_set x l.
Proof.
  assert (Hin : existsb (String.eqb x) (add_to_set x l) = true).
  { apply existsb_exists. exists x. split; [apply add_to_set_in | apply String.eqb_refl]. }
  unfold add_to_set at 1. rewrite Hin. reflexivity.
Qed.

(** [addAwardToAuthor] with a non-blank award on an author the id resolves
    to stores and returns the author with [award.trim()] among its awards,
    every former award kept and [updatedAt = now], leaving the books alone;
    adding the same award again changes nothing but [updatedAt]
    ([$addToSet]).  On an id that resolves to no author it fails with a
    not-found error. *)
Theorem addAwardToAuthor_spec (db : DB) (id : string) (award : option string) (now : Z) :
  blank award = false ->
  match resolve_author db id with
  | None => exists e, addAwardToAuthor id award now db = inl (AwardErr e)
                      /\ kind_of e = NotFoundError
  | Some a =>
    exists db',
      addAwardToAuthor id award now db = inr (addAwardFields (sval award) now a, db')
      /\ authors db' = update_first (author_has_id (new_ObjectId id))
                                    (addAwardFields (sval award) now) (authors db)
      /\ books db' = books db
      /\ In (trim (sval award)) (awards (addAwardFields (sval award) now a))
      /\ (forall x, In x (awards a) -> In x (awards (addAwardFields (sval award) now a)))
      /\ a_updatedAt (addAwardFields (sval award) now a) = now
      /\ (forall now', exists db'',
            addAwardToAuthor id award now' db'
            = inr (addAwardFields (sval award) now' (addAwardFields (sval award) now a), db'')
            /\ awards (addAwardFields (sval award) now' (addAwardFields (sval award) now a))
               = awards (addAwardFields (sval award) now a))
  end.
Proof.
  intros Bl. unfold resolve_author.
  unfold addAwardToAuthor, getAuthorById, updateOneAuthor, bind, guard, ret, throw, get.
  destruct (ObjectId_isValid id) eqn:V; cbn -[find_first update_first blank];
    [|exists EInvalidAuthorId; split; reflexivity].
  rewrite Bl.
  destruct (find_first (author_has_id (new_ObjectId id)) (authors db)) as [a|] eqn:F;
    [|exists EAuthorNotFound; split; reflexivity].
  assert (F' : find_first (author_has_id (new_ObjectId id))
                 (update_first (author_has_id (new_ObjectId id))
                    (addAwardFields (sval award) now) (authors db))
               = Some (addAwardFields (sval award) now a))
    by (apply find_first_update_first; [exact F | reflexivity]).
  cbn -[find_first update_first]. rewrite ?V. cbn -[find_first update_first]. rewrite F'.
  eexists. split; [reflexivity|]. split; [reflexivity|]. split; [reflexivity|].
  split; [apply add_to_set_in|]. split; [intros x; apply add_to_set_keeps|].
  split; [reflexivity|].
  intros now'. cbn -[find_first update_first]. rewrite F'.
  cbn -[find_first update_first]. rewrite ?V. cbn -[find_first update_first].
  rewrite (find_first_update_first _ (addAwardFields (sval award) now') _ _ F'
             (fun _ => eq_refl)).
  eexists. split; [reflexivity|]. simpl. apply add_to_set_idem.
Qed.

Lemma addAwardToAuthor_spec_witness :
  exists db',
    addAwardToAuthor oidA (Some " Nobel ") 3 db0 = inr (addAwardFields " Nobel " 3 author0, db')
    /\ awards (addAwardFields " Nobel " 3 author0) = ["Nobel"].
Proof.
  pose proof (addAwardToAuthor_spec db0 oidA (Some " Nobel ") 3 eq_refl) as H.
  assert (R : resolve_author db0 oidA = Some author0) by (vm_compute; reflexivity).
  rewrite R in H. destruct H as [db' [H _]]. exists db'. split; [exact H | reflexivity].
Defined.

(** ** The routes' answers *)

Lemma prefix_app (s t : string) : String.prefix s (s ++ t) = true.
Proof.
  induction s as [|c s IH]; simpl; [destruct t; reflexivity|].
  destruct (Ascii.ascii_dec c c) as [_|n]; [exact IH | contradiction n; reflexivity].
Qed.

Lemma includes_self (w t : string) : includes w (w ++ t) = true.
Proof.
  pose proof (prefix_app w t) as H. destruct (w ++ t)%string; cbn [includes]; rewrite H; reflexivity.
Qed.

Lemma includes_app_l (w p s : string) : includes w s = true -> includes w (p ++ s) = true.
Proof.
  intros H; induction p as [|c p IH]; simpl; [exact H|]. rewrite IH. apply orb_true_r.
Qed.

Lemma createBook_error (d : BookData) (fresh : string) (now : Z) (db : DB) (e : err) :
  createBook d fresh now db = inl e ->
  e = EValidation (snd (validateBookData d false)) \/ e = EIsbnExists \/ e = EAuthorNotFound.
Proof.
  intros H. unfold createBook in H. unfold_M H. run_cases H.
  all: injection H as <-;
    first [ left; reflexivity | right; left; reflexivity | right; right; reflexivity ].
Qed.

Lemma updateBookById_error (id : string) (d : BookData) (now : Z) (db : DB) (e : err) :
  updateBookById id d now db = inl e ->
  e = EInvalidBookId \/ e = EValidation (snd (validateBookData d true)) \/ e = EIsbnExistsOther
  \/ e = EAuthorNotFound \/ e = EBookNotFound.
Proof.
  intros H. unfold updateBookById in H. unfold_M H. run_cases H.
  all: injection H as <-;
    first [ left; reflexivity | right; right; left; reflexivity
          | right; right; right; left; reflexivity | right; right; right; right; reflexivity
          | right; left; reflexivity ].
Qed.

(** [POST /books] (behind [requireAuth]) answers 401 without a session,
    writing nothing; otherwise 201 with the created book.  Of the errors
    [createBook] itself reports on a string-typed payload (a validation
    error, an ISBN conflict, the missing author), the first two are
    answered 400 and the third 404, and a failure writes nothing. *)
Theorem route_create_book_status (authenticated : bool) (d : BookData) (fresh : string)
    (now : Z) (db : DB) :
  route_create_book authenticated d fresh now db =
  if negb authenticated then ((401, None), db) else
  match createBook d fresh now db with
  | inr (b, db') => ((201, Some b), db')
  | inl e => ((match kind_of e with NotFoundError => 404 | _ => 400 end, None), db)
  end.
Proof.
  unfold route_create_book. destruct authenticated; [|reflexivity]. cbn [negb].
  destruct (createBook d fresh now db) as [e|[b db']] eqn:C; [|reflexivity].
  apply createBook_error in C. destruct C as [-> | [-> | ->]]; [|reflexivity | reflexivity].
  assert (Hv : includes "Validation failed"
                 ("Error creating book: " ++ err_text (EValidation (snd (validateBookData d false))))
               = true).
  { apply includes_app_l. exact (includes_self "Validation failed"
                                   (": " ++ join ", " (snd (validateBookData d false)))). }
  rewrite Hv, !orb_true_r. reflexivity.
Qed.

(** [PUT /books/:id] (behind [requireAuth]) answers 401 without a session;
    otherwise 200 with the updated book; 400 for an ISBN held by another
    book and for a validation failure of ranges only; but 404 'Book not
    found', as for a malformed id or a missing book or author, for a
    validation failure that includes a format rule (ISBN, date or author id),
    since those messages contain 'Invalid', which the route tests first.  A
    failure writes nothing. *)
Theorem route_update_book_status (authenticated : bool) (id : string) (d : BookData) (now : Z)
    (db : DB) :
  route_update_book authenticated id d now db =
  if negb authenticated then ((401, None), db) else
  match updateBookById id d now db with
  | inr (b, db') => ((200, Some b), db')
  | inl (EValidation _) =>
      ((if book_rule_violated d true BR_isbn_fmt || book_rule_violated d true BR_date_fmt
           || book_rule_violated d true BR_author_fmt then 404 else 400, None), db)
  | inl EIsbnExistsOther => ((400, None), db)
  | inl _ => ((404, None), db)
  end.
Proof.
  unfold route_update_book. destruct authenticated; [|reflexivity]. cbn [negb].
  destruct (updateBookById id d now db) as [e|[b db']] eqn:U; [|reflexivity].
  apply updateBookById_error in U.
  destruct U as [-> | [-> | [-> | [-> | ->]]]]; try reflexivity.
  rewrite book_errors. unfold book_rules. cbn [filter].
  destruct (book_rule_violated d true BR_isbn_fmt), (book_rule_violated d true BR_date_fmt),
    (book_rule_violated d true BR_pages_range), (book_rule_violated d true BR_rating_range),
    (book_rule_violated d true BR_author_fmt);
    cbn [book_rule_violated negb andb]; vm_compute; reflexivity.
Qed.

Lemma route_update_book_status_witness :
  fst (route_update_book true oidB1 (isbnPayload "12") 9 db1) = (404, None) /\
  fst (route_update_book true oidB1
         (mkBookData None None None None None None (Some 0) None None) 9 db1) = (400, None).
Proof.
  rewrite !route_update_book_status. split; vm_compute; reflexivity.
Defined.

(** [DELETE /books/:id] (behind [requireAuth]) answers 401 without a
    session; 404 when the id is malformed or names no book; 400 for a book
    on loan; otherwise 200 with the confirmation, the book being removed.
    Only the last case writes. *)
Theorem route_delete_book_status (authenticated : bool) (id : string) (db : DB) :
  route_delete_book authenticated id db =
  if negb authenticated then ((401, None), db) else
  match resolve_book db id with
  | None => ((404, None), db)
  | Some b =>
      if borrowedBy_set b then ((400, None), db)
      else ((200, Some ("Book deleted successfully", title b)),
            set_books db (remove_first (book_has_id (new_ObjectId id)) (books db)))
  end.
Proof.
  unfold route_delete_book. destruct authenticated; [|reflexivity]. cbn [negb].
  unfold resolve_book, deleteBookById, bind, guard, ret, throw, get, deleteOneBook, borrowedBy_set.
  destruct (ObjectId_isValid id); cbn -[find_first remove_first truthy]; [|reflexivity].
  destruct (find_first (book_has_id (new_ObjectId id)) (books db)) eqn:F;
    cbn -[find_first remove_first truthy]; [|reflexivity].
  destruct (truthy (borrowedBy b)); cbn -[find_first remove_first]; [reflexivity|].
  rewrite F. reflexivity.
Qed.

(** [POST /books/:id/return] (behind [requireAuth]) answers 401 without a
    session; 404 when the id is malformed or names no book; 400 for a book
    that is not on loan; otherwise 200 with the returned book, which is
    stored. *)
Theorem route_return_book_status (authenticated : bool) (id : string) (now : Z) (db : DB) :
  route_return_book authenticated id now db =
  if negb authenticated then ((401, None), db) else
  match resolve_book db id with
  | None => ((404, None), db)
  | Some b =>
      if availability b then ((400, None), db)
      else ((200, Some (returnFields now b)),
            set_books db (update_first (book_has_id (new_ObjectId id)) (returnFields now) (books db)))
  end.
Proof.
  unfold route_return_book. destruct authenticated; [|reflexivity]. cbn [negb].
  unfold resolve_book, returnBook, getBookById, bind, guard, ret, throw, get, updateOneBook.
  destruct (ObjectId_isValid id) eqn:V; cbn -[find_first update_first]; [|reflexivity].
  destruct (find_first (book_has_id (new_ObjectId id)) (books db)) as [b|] eqn:F;
    cbn -[find_first update_first]; [|reflexivity].
  destruct (availability b); cbn -[find_first update_first]; [reflexivity|].
  rewrite F. cbn -[find_first update_first]. rewrite (find_returned db id now b F). reflexivity.
Qed.

(** [GET /books/:id] (open to all) answers 404 both for a malformed id and
    for an id that names no book, and 200 with the book otherwise. *)
Theorem route_get_book_status (id : string) (db : DB) :
  route_get_book id db =
  match resolve_book db id with
  | None => ((404, None), db)
  | Some b => ((200, Some b), db)
  end.
Proof.
  unfold route_get_book, resolve_book, getBookById, bind, guard, ret, throw, get.
  destruct (ObjectId_isValid id); cbn -[find_first]; [|reflexivity].
  destruct (find_first (book_has_id (new_ObjectId id)) (books db)); reflexivity.
Qed.

(** ** Listing books: pagination and filters *)

Lemma skip_truthy (p lim : Z) :
  1 <= lim -> negb ((Z.max 1 p - 1) * lim =? 0) = negb (Z.max 1 p =? 1).
Proof.
  intros Hl. f_equal.
  destruct (Z.eqb_spec ((Z.max 1 p - 1) * lim) 0), (Z.eqb_spec (Z.max 1 p) 1); try reflexivity.
  - exfalso. apply Z.mul_eq_0 in e as [e|e]; lia.
  - exfalso. rewrite e in n. lia.
Qed.

(** [GET /books] with a numeric [limit] (or none): the pipeline after its
    [$match], [$lookup], [$unwind] and [$sort] stages pages with [$limit]
    [min(50, max(1, limit))], always between 1 and 50, preceded by [$skip
    (page - 1) * limit] when the page (at least 1) is beyond the first; a
    page that is not a number (NaN) gives no [$skip], i.e. the first page.
    The page is assumed below 2^47, so that [(page - 1) * limit] stays
    below 2^53 and JavaScript computes it exactly; for a huge page the
    float product printed in exponent notation makes [parseInt] give a
    different [$skip]. *)
Theorem list_books_pagination (RegExp_valid : string -> bool) (q : BooksQuery) (l : Z)
    (st : list Stage) :
  limit_arg q = Num l ->
  match page_arg q with Num p => p < 2 ^ 47 | NaN => True end ->
  route_list_pipeline RegExp_valid q = Some st ->
  (1 <= Z.min 50 (Z.max 1 l) <= 50)
  /\ (length st >= 5)%nat
  /\ skipn 4 st =
     ((match page_arg q with
       | Num p => if Z.max 1 p =? 1 then [] else [SSkip ((Z.max 1 p - 1) * Z.min 50 (Z.max 1 l))]
       | NaN => []
       end) ++ [SLimit (Z.min 50 (Z.max 1 l))])%list.
Proof.
  intros Hl _ H.
  unfold route_list_pipeline, getAllBooks_pipeline in H.
  destruct (truthy (f_genre (route_list_filters q)) &&
            negb (RegExp_valid (sval (f_genre (route_list_filters q)))))%bool;
    [discriminate H|].
  injection H as <-.
  assert (B : 1 <= Z.min 50 (Z.max 1 l) <= 50) by lia.
  unfold route_list_options, limit_num, page_num. cbn -[js_parseInt num_truthy].
  fold (limit_arg q). fold (page_arg q). rewrite Hl. cbn [js_max js_min js_sub].
  assert (Lt : negb (Z.min 50 (Z.max 1 l) =? 0) = true)
    by (destruct (Z.eqb_spec (Z.min 50 (Z.max 1 l)) 0); [lia | reflexivity]).
  destruct (page_arg q) as [|p]; cbn [js_mul js_max js_sub].
  - rewrite Lt. simpl. repeat split; lia.
  - rewrite (skip_truthy p _ (proj1 B)), Lt.
    destruct (Z.max 1 p =? 1); simpl; repeat split; lia.
Qed.

Lemma list_books_pagination_witness :
  route_list_pipeline (fun _ => true)
    (mkBooksQuery None None None None None (Some "3") (Some "500")) =
  Some [SMatch (mkBookQuery None None None); SLookupAuthor; SUnwindAuthor;
        SSort "createdAt" (-1); SSkip 100; SLimit 50] /\
  skipn 4 [SMatch (mkBookQuery None None None); SLookupAuthor; SUnwindAuthor;
           SSort "createdAt" (-1); SSkip 100; SLimit 50] = [SSkip 100; SLimit 50].
Proof.
  split; [vm_compute; reflexivity|].
  pose proof (list_books_pagination (fun _ => true)
                (mkBooksQuery None None None None None (Some "3") (Some "500")) 500
                [SMatch (mkBookQuery None None None); SLookupAuthor; SUnwindAuthor;
                 SSort "createdAt" (-1); SSkip 100; SLimit 50]) as H.
  destruct H as [_ [_ H]]; [vm_compute; reflexivity | vm_compute; reflexivity
                           | vm_compute; reflexivity | exact H].
Defined.

(** [GET /books] with a [limit] that is not a number ([parseInt] gives NaN,
    e.g. [?limit=all]): [Math.max] and [Math.min] propagate NaN, [options.skip]
    and [options.limit] are NaN, hence falsy, and the pipeline has neither
    [$skip] nor [$limit]: the whole collection is returned, past the cap of
    50 and whatever the page. *)
Theorem list_books_nan_limit (RegExp_valid : string -> bool) (q : BooksQuery) (st : list Stage) :
  limit_arg q = NaN ->
  route_list_pipeline RegExp_valid q = Some st ->
  length st = 4%nat /\ limit_num q = NaN.
Proof.
  intros Hl H.
  unfold route_list_pipeline, getAllBooks_pipeline in H.
  destruct (truthy (f_genre (route_list_filters q)) &&
            negb (RegExp_valid (sval (f_genre (route_list_filters q)))))%bool;
    [discriminate H|].
  injection H as <-.
  unfold route_list_options, limit_num, page_num. cbn -[js_parseInt num_truthy].
  fold (limit_arg q). fold (page_arg q). rewrite Hl. cbn [js_max js_min js_mul].
  destruct (js_sub (js_max 1 (page_arg q)) 1); split; reflexivity.
Qed.

Lemma list_books_nan_limit_witness :
  route_list_pipeline (fun _ => true)
    (mkBooksQuery None None None None None (Some "2") (Some "all")) =
  Some [SMatch (mkBookQuery None None None); SLookupAuthor; SUnwindAuthor;
        SSort "createdAt" (-1)] /\
  length [SMatch (mkBookQuery None None None); SLookupAuthor; SUnwindAuthor;
          SSort "createdAt" (-1)] = 4%nat.
Proof.
  split; [vm_compute; reflexivity|].
  exact (proj1 (list_books_nan_limit (fun _ => true)
                  (mkBooksQuery None None None None None (Some "2") (Some "all")) _
                  eq_refl eq_refl)).
Defined.

(** [GET /books?authorId=...] with a value that is not a valid ObjectId
    filters nothing: [getAllBooks] drops the condition, so the pipeline is
    that of the same query without [authorId] (all authors' books). *)
Theorem list_books_invalid_authorId (RegExp_valid : string -> bool) (q : BooksQuery) (s : string) :
  rq_authorId q = Some s -> ObjectId_isValid s = false ->
  route_list_pipeline RegExp_valid q = route_list_pipeline RegExp_valid (without_authorId q).
Proof.
  intros Ha V.
  assert (F : (truthy (opt_truthy (Some s)) && ObjectId_isValid (sval (opt_truthy (Some s))))%bool
              = false)
    by (unfold opt_truthy; destruct (truthy (Some s)); simpl; [rewrite V, andb_false_r|]; reflexivity).
  unfold route_list_pipeline, getAllBooks_pipeline, route_list_filters.
  cbn [f_authorId]. rewrite Ha, F. reflexivity.
Qed.

Lemma list_books_invalid_authorId_witness :
  route_list_pipeline (fun _ => true)
    (mkBooksQuery None (Some "not-an-id") None None None None None) =
  route_list_pipeline (fun _ => true)
    (without_authorId (mkBooksQuery None (Some "not-an-id") None None None None None)).
Proof.
  exact (list_books_invalid_authorId (fun _ => true)
           (mkBooksQuery None (Some "not-an-id") None None None None None) "not-an-id"
           eq_refl eq_refl).
Defined.
